(** * Phone validator: the validation-and-classification filter

    A shallow embedding of [handleValidate] of the [PhoneValidator] island
    (islands/PhoneValidator.tsx) together with its two lookup tables,
    [numberTypeLabels] and [errorMessages], and of the label lookup of the
    earlier revision of that handler.

    The telephone-number engine (intl-tel-input) is a black box: the model
    sees it through the five accessors the handler calls, bundled in the
    record [Iti].  The component's signals and refs are the fields of
    [State]; [handleValidate] is a state transformer that only ever writes
    the [result] signal. *)

From stdpp Require Import base option strings gmap.
From Stdlib Require Import ZArith Ascii String.

Local Open Scope Z_scope.
Local Open Scope string_scope.

(** ** JavaScript primitives used by the handler *)

(** [s || d] on a string operand: the empty string is the only falsy
    string. *)
Definition js_or (s d : string) : string :=
  match s with
  | EmptyString => d
  | String _ _ => s
  end.

(** [v || d] where [v] may be [undefined] ([None]). *)
Definition js_or_undefined (v : option string) (d : string) : string :=
  match v with
  | Some s => js_or s d
  | None => d
  end.

(** [String.prototype.toUpperCase] on ASCII text (ISO alpha-2 country codes
    are ASCII): the letters a..z move to A..Z, every other character is
    kept. *)
Definition upper_ascii (c : ascii) : ascii :=
  let n := nat_of_ascii c in
  if (andb (Nat.leb 97 n) (Nat.leb n 122)) then ascii_of_nat (n - 32)%nat else c.

Fixpoint toUpperCase (s : string) : string :=
  match s with
  | EmptyString => EmptyString
  | String c rest => String (upper_ascii c) (toUpperCase rest)
  end.

(** Text made of ASCII characters only (every byte below 128), as the
    ISO alpha-2 codes of the engine's country data are.  On such text
    [toUpperCase] is [String.prototype.toUpperCase]. *)
Fixpoint isAsciiText (s : string) : bool :=
  match s with
  | EmptyString => true
  | String c rest => (nat_of_ascii c <? 128)%nat && isAsciiText rest
  end.

(** ** Data model *)

(** [type NumberType = "mobile" | "fixed_line" | "any"]: the value of the
    type-filter dropdown. *)
Inductive NumberTypeFilter : Type :=
  | mobile
  | fixed_line
  | any.

#[global] Instance NumberTypeFilter_eq_dec : EqDecision NumberTypeFilter.
Proof. solve_decision. Defined.

Record ValidationResult : Type := mkValidationResult {
  isValid : bool;
  number : string;
  countryCode : string;
  countryName : string;
  nationalNumber : string;
  internationalNumber : string;
  numberType : string;
  errorMessage : option string   (* [errorMessage?: string] *)
}.

(** Number type IDs from libphonenumber. *)
Module NumberType.
Definition FIXED_LINE : Z := 0.
Definition MOBILE : Z := 1.
Definition FIXED_LINE_OR_MOBILE : Z := 2.
Definition TOLL_FREE : Z := 3.
Definition PREMIUM_RATE : Z := 4.
Definition SHARED_COST : Z := 5.
Definition VOIP : Z := 6.
Definition PERSONAL_NUMBER : Z := 7.
Definition PAGER : Z := 8.
Definition UAN : Z := 9.
Definition VOICEMAIL : Z := 10.
Definition UNKNOWN : Z := -1.
End NumberType.

Definition numberTypeLabels : gmap Z string :=
  list_to_map
    [ (NumberType.FIXED_LINE, "Fixed Line");
      (NumberType.MOBILE, "Mobile");
      (NumberType.FIXED_LINE_OR_MOBILE, "Fixed Line or Mobile");
      (NumberType.TOLL_FREE, "Toll Free");
      (NumberType.PREMIUM_RATE, "Premium Rate");
      (NumberType.SHARED_COST, "Shared Cost");
      (NumberType.VOIP, "VoIP");
      (NumberType.PERSONAL_NUMBER, "Personal Number");
      (NumberType.PAGER, "Pager");
      (NumberType.UAN, "UAN");
      (NumberType.VOICEMAIL, "Voicemail");
      (NumberType.UNKNOWN, "Unknown") ].

(** Number format IDs from libphonenumber. *)
Module NumberFormat.
Definition E164 : Z := 0.
Definition INTERNATIONAL : Z := 1.
Definition NATIONAL : Z := 2.
Definition RFC3966 : Z := 3.
End NumberFormat.

Definition errorMessages : gmap Z string :=
  list_to_map
    [ (1, "Invalid country code");
      (2, "Number too short");
      (3, "Number too long");
      (4, "Not a number");
      (5, "Invalid length");
      (-99, "Validation unavailable") ].

(** ** The engine as the handler sees it *)

(** The object returned by [iti.getSelectedCountryData()]; both properties
    may be missing (the handler reads them with [?.] and [||]). *)
Record SelectedCountryData : Type := mkSelectedCountryData {
  iso2 : option string;
  name : option string
}.

(** The readings of the engine instance at the moment of a validation. *)
Record Iti : Type := mkIti {
  isValidNumber : bool;
  getValidationError : Z;
  getSelectedCountryData : SelectedCountryData;
  getNumberType : Z;
  getNumber : Z -> string
}.

(** The configuration object handed to [intlTelInput]; the [geoIpLookup]
    callback performs a network request and is left out. *)
Record ItiOptions : Type := mkItiOptions {
  opt_initialCountry : string;
  opt_nationalMode : bool;
  opt_formatAsYouType : bool;
  opt_formatOnDisplay : bool;
  opt_strictMode : bool
}.

(** ** Component state *)

Record State : Type := mkState {
  inputRef : option string;        (* [inputRef.current], through its [.value] *)
  itiRef : option Iti;             (* [itiRef.current] *)
  strictMode : bool;
  numberTypeFilter : NumberTypeFilter;
  result : option ValidationResult;
  isLoading : bool
}.

Definition set_result (r : option ValidationResult) (st : State) : State :=
  {| inputRef := inputRef st;
     itiRef := itiRef st;
     strictMode := strictMode st;
     numberTypeFilter := numberTypeFilter st;
     result := r;
     isLoading := isLoading st |}.

Definition set_strictMode (b : bool) (st : State) : State :=
  {| inputRef := inputRef st;
     itiRef := itiRef st;
     strictMode := b;
     numberTypeFilter := numberTypeFilter st;
     result := result st;
     isLoading := isLoading st |}.

(** The options literal of both [useEffect] bodies: the only place where
    [strictMode.value] is read. *)
Definition itiOptions (st : State) : ItiOptions :=
  {| opt_initialCountry := "auto";
     opt_nationalMode := false;
     opt_formatAsYouType := true;
     opt_formatOnDisplay := true;
     opt_strictMode := strictMode st |}.

(** ** The handler *)

(** [numberTypeLabels[numberType] || "Unknown"] *)
Definition label (numberType : Z) : string :=
  js_or_undefined (numberTypeLabels !! numberType) "Unknown".

(** [errorMessages[errorCode] || "Invalid number"] *)
Definition lookupErrorMessage (errorCode : Z) : string :=
  js_or_undefined (errorMessages !! errorCode) "Invalid number".

(** [numberData.iso2?.toUpperCase() || ""] *)
Definition countryCodeOf (numberData : SelectedCountryData) : string :=
  js_or_undefined (toUpperCase <$> iso2 numberData) "".

(** [numberData.name || ""] *)
Definition countryNameOf (numberData : SelectedCountryData) : string :=
  js_or_undefined (name numberData) "".

(** The body of [handleValidate] after its guard: the record assigned to
    [result.value], as a function of the engine readings [iti], the text of
    the input element [value] and the selected filter [filter]
    ([numberTypeFilter.value]). *)
Definition validate (iti : Iti) (value : string) (filter : NumberTypeFilter)
  : ValidationResult :=
  let isValid := isValidNumber iti in
  let numberData := getSelectedCountryData iti in
  if negb isValid then
    let errorCode := getValidationError iti in
    {| isValid := false;
       number := value;
       countryCode := countryCodeOf numberData;
       countryName := countryNameOf numberData;
       nationalNumber := "";
       internationalNumber := "";
       numberType := "";
       errorMessage := Some (lookupErrorMessage errorCode) |}
  else
    let numberType := getNumberType iti in
    let isMobile :=
      (numberType =? NumberType.MOBILE)%Z
      || (numberType =? NumberType.FIXED_LINE_OR_MOBILE)%Z in
    let isFixedLine :=
      (numberType =? NumberType.FIXED_LINE)%Z
      || (numberType =? NumberType.FIXED_LINE_OR_MOBILE)%Z in
    (* Check type filter *)
    if negb (bool_decide (filter = any))
       && (bool_decide (filter = mobile) && negb isMobile) then
      {| isValid := false;
         number := value;
         countryCode := countryCodeOf numberData;
         countryName := countryNameOf numberData;
         nationalNumber := js_or (getNumber iti NumberFormat.NATIONAL) "";
         internationalNumber := js_or (getNumber iti NumberFormat.INTERNATIONAL) "";
         numberType := label numberType;
         errorMessage := Some ("Expected mobile number, got " ++ label numberType) |}
    else if negb (bool_decide (filter = any))
       && (bool_decide (filter = fixed_line) && negb isFixedLine) then
      {| isValid := false;
         number := value;
         countryCode := countryCodeOf numberData;
         countryName := countryNameOf numberData;
         nationalNumber := js_or (getNumber iti NumberFormat.NATIONAL) "";
         internationalNumber := js_or (getNumber iti NumberFormat.INTERNATIONAL) "";
         numberType := label numberType;
         errorMessage := Some ("Expected fixed line number, got " ++ label numberType) |}
    else
      {| isValid := true;
         number := value;
         countryCode := countryCodeOf numberData;
         countryName := countryNameOf numberData;
         nationalNumber := js_or (getNumber iti NumberFormat.NATIONAL) "";
         internationalNumber := js_or (getNumber iti NumberFormat.INTERNATIONAL) "";
         numberType := label numberType;
         errorMessage := None |}.

(** [handleValidate]: returns at once, leaving every signal as it was, when
    the engine or the input element is missing or the widget is still
    loading; otherwise stores the verdict in [result]. *)
Definition handleValidate (st : State) : State :=
  match itiRef st, inputRef st, isLoading st with
  | Some iti, Some value, false =>
      set_result (Some (validate iti value (numberTypeFilter st))) st
  | _, _, _ => st
  end.

(** ** The earlier revision of the handler

    routes/index.tsx carries an earlier revision of the island.  Its verdict
    logic is the same; it differs in how the label is found: the type code
    is first resolved to its name through the engine's own enumeration
    [window.intlTelInputUtils.numberType], and the label table is keyed by
    these names. *)

(** The enumeration of number types, as (name, ID) pairs in declaration
    order: the [NumberType] constant of the island, which records the IDs of
    libphonenumber. *)
Definition numberTypeEnum : list (string * Z) :=
  [ ("FIXED_LINE", NumberType.FIXED_LINE);
    ("MOBILE", NumberType.MOBILE);
    ("FIXED_LINE_OR_MOBILE", NumberType.FIXED_LINE_OR_MOBILE);
    ("TOLL_FREE", NumberType.TOLL_FREE);
    ("PREMIUM_RATE", NumberType.PREMIUM_RATE);
    ("SHARED_COST", NumberType.SHARED_COST);
    ("VOIP", NumberType.VOIP);
    ("PERSONAL_NUMBER", NumberType.PERSONAL_NUMBER);
    ("PAGER", NumberType.PAGER);
    ("UAN", NumberType.UAN);
    ("VOICEMAIL", NumberType.VOICEMAIL);
    ("UNKNOWN", NumberType.UNKNOWN) ].

Module Legacy.

Definition numberTypeLabels : gmap string string :=
  list_to_map
    [ ("FIXED_LINE", "Fixed Line");
      ("MOBILE", "Mobile");
      ("FIXED_LINE_OR_MOBILE", "Fixed Line or Mobile");
      ("TOLL_FREE", "Toll Free");
      ("PREMIUM_RATE", "Premium Rate");
      ("SHARED_COST", "Shared Cost");
      ("VOIP", "VoIP");
      ("PERSONAL_NUMBER", "Personal Number");
      ("PAGER", "Pager");
      ("UAN", "UAN");
      ("VOICEMAIL", "Voicemail");
      ("UNKNOWN", "Unknown") ].

(** [Object.keys(utils?.numberType || {}).find(key => utils.numberType[key]
    === numberType) || "UNKNOWN"], where [utilsNumberType] is the engine's
    enumeration ([None] when the utilities are not loaded). *)
Definition numberTypeKey (utilsNumberType : option (list (string * Z)))
    (numberType : Z) : string :=
  js_or_undefined
    (fst <$> List.find (fun entry => (snd entry =? numberType)%Z)
                       (default [] utilsNumberType))
    "UNKNOWN".

(** [numberTypeLabels[numberTypeKey] || numberTypeKey] *)
Definition label (utilsNumberType : option (list (string * Z)))
    (numberType : Z) : string :=
  let numberTypeKey := numberTypeKey utilsNumberType numberType in
  js_or_undefined (numberTypeLabels !! numberTypeKey) numberTypeKey.

(** [numberTypeKey === "MOBILE" || numberTypeKey === "FIXED_LINE_OR_MOBILE"] *)
Definition isMobile (numberTypeKey : string) : bool :=
  String.eqb numberTypeKey "MOBILE"
  || String.eqb numberTypeKey "FIXED_LINE_OR_MOBILE".

(** [numberTypeKey === "FIXED_LINE" || numberTypeKey ===
    "FIXED_LINE_OR_MOBILE"] *)
Definition isFixedLine (numberTypeKey : string) : bool :=
  String.eqb numberTypeKey "FIXED_LINE"
  || String.eqb numberTypeKey "FIXED_LINE_OR_MOBILE".

End Legacy.

(** ** Derived predicates used in the statements *)

(** The two derived flags of the handler. *)
Definition isMobileType (t : Z) : bool :=
  (t =? NumberType.MOBILE)%Z || (t =? NumberType.FIXED_LINE_OR_MOBILE)%Z.

Definition isFixedLineType (t : Z) : bool :=
  (t =? NumberType.FIXED_LINE)%Z || (t =? NumberType.FIXED_LINE_OR_MOBILE)%Z.

(** Whether the filter [f] turns away a valid number of type [t]. *)
Definition rejects (f : NumberTypeFilter) (t : Z) : bool :=
  match f with
  | mobile => negb (isMobileType t)
  | fixed_line => negb (isFixedLineType t)
  | any => false
  end.

(** ** Sample engine readings *)

(** A valid United States number with formatted representations, of number
    type [t]. *)
Definition usNumber (t : Z) : Iti :=
  {| isValidNumber := true;
     getValidationError := 0;
     getSelectedCountryData :=
       {| iso2 := Some "us"; name := Some "United States" |};
     getNumberType := t;
     getNumber := fun format =>
       if (format =? NumberFormat.NATIONAL)%Z then "(555) 123-4567"
       else if (format =? NumberFormat.INTERNATIONAL)%Z then "+1 555-123-4567"
       else "+15551234567" |}.

(** A rejected input with validation error [code] and no country selected. *)
Definition badNumber (code : Z) : Iti :=
  {| isValidNumber := false;
     getValidationError := code;
     getSelectedCountryData := {| iso2 := None; name := None |};
     getNumberType := NumberType.UNKNOWN;
     getNumber := fun _ => "" |}.

(** A rejected input typed with the Netherlands selected. *)
Definition nlBadNumber (code : Z) : Iti :=
  {| isValidNumber := false;
     getValidationError := code;
     getSelectedCountryData :=
       {| iso2 := Some "nl"; name := Some "Netherlands" |};
     getNumberType := NumberType.UNKNOWN;
     getNumber := fun _ => "" |}.

(** A mounted, loaded component holding engine readings [iti], input text
    [value], the filter [f], the strict-mode flag [strict] and a previous
    verdict [r]. *)
Definition readyState (iti : Iti) (value : string) (f : NumberTypeFilter)
    (strict : bool) (r : option ValidationResult) : State :=
  {| inputRef := Some value;
     itiRef := Some iti;
     strictMode := strict;
     numberTypeFilter := f;
     result := r;
     isLoading := false |}.

(** ** The other handlers of the island *)

(** [handleClear]: empties the input element when there is one, and drops
    the verdict. *)
Definition handleClear (st : State) : State :=
  {| inputRef := (fun _ => "") <$> inputRef st;
     itiRef := itiRef st;
     strictMode := strictMode st;
     numberTypeFilter := numberTypeFilter st;
     result := None;
     isLoading := isLoading st |}.

(** [numberTypeFilter.value = e.target.value as NumberType], the [onChange]
    of the dropdown. *)
Definition set_numberTypeFilter (f : NumberTypeFilter) (st : State) : State :=
  {| inputRef := inputRef st;
     itiRef := itiRef st;
     strictMode := strictMode st;
     numberTypeFilter := f;
     result := result st;
     isLoading := isLoading st |}.

(** The string behind each value of [NumberTypeFilter]. *)
Definition filterValue (f : NumberTypeFilter) : string :=
  match f with
  | mobile => "mobile"
  | fixed_line => "fixed_line"
  | any => "any"
  end.

(** ** The rendered tree *)

(** The functions the tree attaches to its elements. *)
Inductive Handler : Type :=
  | HValidate              (* [handleValidate] *)
  | HClear                 (* [handleClear] *)
  | HStrictModeChange      (* [(e) => strictMode.value = e.target.checked] *)
  | HNumberTypeChange      (* [(e) => numberTypeFilter.value = e.target.value] *)
  | HCopyNational          (* [() => copyToClipboard(result.value!.nationalNumber)] *)
  | HCopyInternational.    (* [() => copyToClipboard(result.value!.internationalNumber)] *)

#[global] Instance Handler_eq_dec : EqDecision Handler.
Proof. solve_decision. Defined.

Inductive PropValue : Type :=
  | PString (s : string)
  | PBool (b : bool)
  | PHandler (h : Handler)
  | PInputRef.             (* [ref={inputRef}] *)

(** What a JSX expression of the island evaluates to: an element, a string
    child, or one of the values [false], [null] and [undefined] that a
    short-circuited [&&] leaves behind and that render nothing. *)
#[warnings="-register-all"]
Inductive VNode : Type :=
  | VElem (tag : string) (props : list (string * PropValue))
          (children : list VNode)
  | VText (s : string)
  | VFalse
  | VNull
  | VUndefined.

(** [s && node] for a string [s]: the empty string is falsy and is itself
    the value of the expression. *)
Definition js_and_string (s : string) (node : VNode) : VNode :=
  match s with
  | EmptyString => VText ""
  | String _ _ => node
  end.

(** One of the four cards of the result grid, with its caption. *)
Definition copyCard (caption text : string) (h : Handler) : VNode :=
  VElem "div" [("class", PString "bg-white rounded p-3 border border-gray-200")]
    [ VElem "div" [("class", PString "text-gray-500 text-xs mb-1")]
        [VText caption];
      VElem "div"
        [("class", PString "font-mono flex items-center justify-between")]
        [ VElem "span" [] [VText text];
          VElem "button"
            [ ("onClick", PHandler h);
              ("class", PString "text-xs px-2 py-1 bg-gray-100 hover:bg-gray-200 rounded transition-colors");
              ("title", PString "Copy") ]
            [VText "Copy"] ] ].

(** The results section for a verdict [r]. *)
Definition resultsSection (r : ValidationResult) : VNode :=
  VElem "div"
    [("class", PString ("rounded-lg shadow p-4 " ++
        (if isValid r then "bg-green-50 border border-green-200"
         else "bg-red-50 border border-red-200")))]
    [ VElem "div" [("class", PString "flex items-center gap-2 mb-3")]
        [ VElem "span"
            [("class", PString ("text-lg font-semibold " ++
                (if isValid r then "text-green-700" else "text-red-700")))]
            [VText (if isValid r then "Valid" else "Invalid")];
          match errorMessage r with
          | None => VUndefined
          | Some m =>
              js_and_string m
                (VElem "span" [("class", PString "text-sm text-red-600")]
                   [VText "- "; VText m])
          end ];
      VElem "div"
        [("class", PString "grid grid-cols-1 md:grid-cols-2 gap-3 text-sm")]
        [ VElem "div"
            [("class", PString "bg-white rounded p-3 border border-gray-200")]
            [ VElem "div" [("class", PString "text-gray-500 text-xs mb-1")]
                [VText "Country"];
              VElem "div"
                [("class", PString "font-mono flex items-center justify-between")]
                [ VElem "span" []
                    [ VText (countryName r); VText " (";
                      VText (countryCode r); VText ")" ] ] ];
          VElem "div"
            [("class", PString "bg-white rounded p-3 border border-gray-200")]
            [ VElem "div" [("class", PString "text-gray-500 text-xs mb-1")]
                [VText "Number Type"];
              VElem "div" [("class", PString "font-mono")]
                [VText (js_or (numberType r) "â€”")] ];
          js_and_string (nationalNumber r)
            (copyCard "National Format" (nationalNumber r) HCopyNational);
          js_and_string (internationalNumber r)
            (copyCard "International Format" (internationalNumber r)
               HCopyInternational) ] ].

(** The tree returned by [PhoneValidator]. *)
Definition render (st : State) : VNode :=
  VElem "div" [("class", PString "w-full max-w-2xl mx-auto")]
    [ (* Input Section *)
      VElem "div" [("class", PString "mb-4")]
        [ VElem "label"
            [("class", PString "block text-sm font-medium text-gray-700 mb-1")]
            [VText "Phone Number"];
          VElem "div" [("class", PString "relative")]
            [ VElem "input"
                [ ("ref", PInputRef);
                  ("type", PString "tel");
                  ("class", PString "w-full p-3 border border-gray-300 rounded-lg focus:ring-2 focus:ring-blue-500 focus:border-blue-500 text-base");
                  ("placeholder", PString "Enter phone number...") ]
                [] ];
          if isLoading st then
            VElem "p" [("class", PString "text-xs text-gray-500 mt-1")]
              [VText "Loading..."]
          else VFalse ];
      (* Options Section *)
      VElem "div" [("class", PString "bg-gray-50 rounded-lg p-4 mb-4")]
        [ VElem "h3"
            [("class", PString "text-sm font-medium text-gray-700 mb-3")]
            [VText "Options"];
          VElem "div" [("class", PString "flex flex-wrap gap-4")]
            [ VElem "label"
                [("class", PString "flex items-center gap-2 cursor-pointer")]
                [ VElem "input"
                    [ ("type", PString "checkbox");
                      ("checked", PBool (strictMode st));
                      ("onChange", PHandler HStrictModeChange);
                      ("class", PString "rounded border-gray-300 text-blue-600 focus:ring-blue-500") ]
                    [];
                  VElem "span" [("class", PString "text-sm text-gray-700")]
                    [VText "Strict Mode"] ];
              VElem "div" [("class", PString "flex items-center gap-2")]
                [ VElem "span" [("class", PString "text-sm text-gray-700")]
                    [VText "Number Type:"];
                  VElem "select"
                    [ ("value", PString (filterValue (numberTypeFilter st)));
                      ("onChange", PHandler HNumberTypeChange);
                      ("class", PString "rounded border-gray-300 text-sm focus:ring-blue-500 focus:border-blue-500") ]
                    [ VElem "option" [("value", PString "any")] [VText "Any"];
                      VElem "option" [("value", PString "mobile")]
                        [VText "Mobile"];
                      VElem "option" [("value", PString "fixed_line")]
                        [VText "Fixed Line"] ] ] ] ];
      (* Action Buttons *)
      VElem "div" [("class", PString "flex gap-3 mb-6")]
        [ VElem "button"
            [ ("onClick", PHandler HValidate);
              ("disabled", PBool (isLoading st));
              ("class", PString ("px-6 py-2 font-medium rounded-lg transition-colors " ++
                  (if isLoading st
                   then "bg-gray-400 text-gray-200 cursor-not-allowed"
                   else "bg-blue-600 text-white hover:bg-blue-700"))) ]
            [VText (if isLoading st then "Loading..." else "Validate")];
          VElem "button"
            [ ("onClick", PHandler HClear);
              ("class", PString "px-4 py-2 bg-gray-200 text-gray-700 font-medium rounded-lg hover:bg-gray-300 transition-colors") ]
            [VText "Clear"] ];
      (* Results Section *)
      match result st with
      | None => VNull
      | Some r => resultsSection r
      end ].

(** ** Reading a tree *)

(** The text a tree shows: its string children, in document order. *)
Fixpoint textContent (n : VNode) : string :=
  match n with
  | VElem _ _ children =>
      (fix all (l : list VNode) : string :=
         match l with
         | [] => ""
         | c :: rest => textContent c ++ all rest
         end) children
  | VText s => s
  | VFalse | VNull | VUndefined => ""
  end.

(** The handlers among the props of one element. *)
Fixpoint propHandlers (props : list (string * PropValue)) : list Handler :=
  match props with
  | [] => []
  | (_, PHandler h) :: rest => h :: propHandlers rest
  | _ :: rest => propHandlers rest
  end.

(** Whether the element carries [disabled={true}]. *)
Fixpoint propDisabled (props : list (string * PropValue)) : bool :=
  match props with
  | [] => false
  | (key, PBool b) :: rest =>
      if String.eqb key "disabled" then b else propDisabled rest
  | _ :: rest => propDisabled rest
  end.

(** The handlers a user can trigger: those of the elements of the tree that
    are not disabled, in document order. *)
Fixpoint handlers (n : VNode) : list Handler :=
  match n with
  | VElem _ props children =>
      ((if propDisabled props then [] else propHandlers props)
       ++ (fix all (l : list VNode) : list Handler :=
             match l with
             | [] => []
             | c :: rest => (handlers c ++ all rest)%list
             end) children)%list
  | _ => []
  end.

(** The string value of the prop [key] of an element, if it has one. *)
Fixpoint propString (key : string) (props : list (string * PropValue))
  : option string :=
  match props with
  | [] => None
  | (k, PString s) :: rest =>
      if String.eqb k key then Some s else propString key rest
  | _ :: rest => propString key rest
  end.

(** The elements of the tree whose [class] is exactly [c], in document
    order. *)
Fixpoint byClass (c : string) (n : VNode) : list VNode :=
  match n with
  | VElem _ props children =>
      ((if bool_decide (propString "class" props = Some c) then [n] else [])
       ++ (fix all (l : list VNode) : list VNode :=
             match l with
             | [] => []
             | child :: rest => (byClass c child ++ all rest)%list
             end) children)%list
  | _ => []
  end.

(** ** The island over time *)

(** Calls made on the engine library: [intlTelInput(input, options)], which
    creates an instance, and [destroy()] on an instance.  Instances are
    numbered in creation order. *)
Inductive EngineCall : Type :=
  | EngineCreate (instance : nat) (options : ItiOptions)
  | EngineDestroy (instance : nat).

(** The island with what its handlers and effects act on besides the
    signals: the clipboard, the engine library, and the instances the two
    references to an engine designate. *)
Record Page : Type := mkPage {
  signals : State;
  clipboard : option string;      (* last text given to [navigator.clipboard.writeText] *)
  engineCalls : list EngineCall;  (* oldest first *)
  currentInstance : option nat;   (* the instance [itiRef.current] is *)
  mountInstance : option nat;     (* the [iti] held by the cleanup of the first effect *)
  mountEffectRan : bool;          (* the effect with dependencies [[]] runs once *)
  unmounted : bool
}.

(** The number of instances created so far, hence the number of the next. *)
Fixpoint created (calls : list EngineCall) : nat :=
  match calls with
  | [] => 0
  | EngineCreate _ _ :: rest => S (created rest)
  | EngineDestroy _ :: rest => created rest
  end.

(** The instances created and not destroyed since, oldest first. *)
Fixpoint liveAfter (live : list nat) (calls : list EngineCall) : list nat :=
  match calls with
  | [] => live
  | EngineCreate i _ :: rest => liveAfter (live ++ [i])%list rest
  | EngineDestroy i :: rest =>
      liveAfter (List.filter (fun j => negb (Nat.eqb j i)) live) rest
  end.

Definition live (calls : list EngineCall) : list nat := liveAfter [] calls.

(** How often [destroy()] was called on instance [i]. *)
Fixpoint destroyCount (i : nat) (calls : list EngineCall) : nat :=
  match calls with
  | [] => 0
  | EngineDestroy j :: rest =>
      (if Nat.eqb i j then 1 else 0) + destroyCount i rest
  | EngineCreate _ _ :: rest => destroyCount i rest
  end.

Definition with_signals (st : State) (p : Page) : Page :=
  {| signals := st;
     clipboard := clipboard p;
     engineCalls := engineCalls p;
     currentInstance := currentInstance p;
     mountInstance := mountInstance p;
     mountEffectRan := mountEffectRan p;
     unmounted := unmounted p |}.

(** The first effect has been run. *)
Definition set_mountEffectRan (p : Page) : Page :=
  {| signals := signals p;
     clipboard := clipboard p;
     engineCalls := engineCalls p;
     currentInstance := currentInstance p;
     mountInstance := mountInstance p;
     mountEffectRan := true;
     unmounted := unmounted p |}.

(** The page before any effect has run: the signals hold their initial
    values ([useSignal(false)], [useSignal("any")], [useSignal(null)],
    [useSignal(true)]), [itiRef] is [null], and [input] is the text of the
    input element when the element exists. *)
Definition initialPage (input : option string) : Page :=
  {| signals :=
       {| inputRef := input;
          itiRef := None;
          strictMode := false;
          numberTypeFilter := any;
          result := None;
          isLoading := true |};
     clipboard := None;
     engineCalls := [];
     currentInstance := None;
     mountInstance := None;
     mountEffectRan := false;
     unmounted := false |}.

(** The body of the first effect; [iti] stands for the instance that
    [intlTelInput] returns. *)
Definition mountEffect (iti : Iti) (p : Page) : Page :=
  let st := signals p in
  match inputRef st with
  | None => p
  | Some _ =>
      let instance := created (engineCalls p) in
      {| signals :=
           {| inputRef := inputRef st;
              itiRef := Some iti;
              strictMode := strictMode st;
              numberTypeFilter := numberTypeFilter st;
              result := result st;
              isLoading := false |};
         clipboard := clipboard p;
         engineCalls :=
           (engineCalls p ++ [EngineCreate instance (itiOptions st)])%list;
         currentInstance := Some instance;
         mountInstance := Some instance;
         mountEffectRan := mountEffectRan p;
         unmounted := unmounted p |}
  end.

(** The cleanup returned by the first effect: [iti.destroy()] on the
    instance that effect created. *)
Definition mountCleanup (p : Page) : Page :=
  {| signals := signals p;
     clipboard := clipboard p;
     engineCalls :=
       (engineCalls p ++
        match mountInstance p with
        | Some instance => [EngineDestroy instance]
        | None => []
        end)%list;
     currentInstance := currentInstance p;
     mountInstance := mountInstance p;
     mountEffectRan := mountEffectRan p;
     unmounted := true |}.

(** The body of the second effect, which runs when [strictMode.value] has
    changed: the current instance is destroyed and a new one created from
    the current options.  What the new instance does to the text of the
    input element as it starts is an [EInput] event of its own. *)
Definition strictModeEffect (iti : Iti) (p : Page) : Page :=
  let st := signals p in
  match itiRef st, inputRef st with
  | Some _, Some _ =>
      let instance := created (engineCalls p) in
      {| signals :=
           {| inputRef := inputRef st;
              itiRef := Some iti;
              strictMode := strictMode st;
              numberTypeFilter := numberTypeFilter st;
              result := result st;
              isLoading := isLoading st |};
         clipboard := clipboard p;
         engineCalls :=
           (engineCalls p ++
            match currentInstance p with
            | Some current => [EngineDestroy current]
            | None => []
            end ++ [EngineCreate instance (itiOptions st)])%list;
         currentInstance := Some instance;
         mountInstance := mountInstance p;
         mountEffectRan := mountEffectRan p;
         unmounted := unmounted p |}
  | _, _ => p
  end.

(** [copyToClipboard(result.value!.nationalNumber)] and its sibling: [None]
    stands for the [TypeError] of reading a property of [null]. *)
Definition copyToClipboard (text : string) (p : Page) : Page :=
  {| signals := signals p;
     clipboard := Some text;
     engineCalls := engineCalls p;
     currentInstance := currentInstance p;
     mountInstance := mountInstance p;
     mountEffectRan := mountEffectRan p;
     unmounted := unmounted p |}.

Definition copyField (field : ValidationResult -> string) (p : Page)
  : option Page :=
  match result (signals p) with
  | Some r => Some (copyToClipboard (field r) p)
  | None => None
  end.

(** What can happen to a mounted island. *)
Inductive Event : Type :=
  | EMountEffect (iti : Iti)          (* the first effect runs *)
  | EStrictModeEffect (iti : Iti)     (* the second effect runs *)
  | EUnmount                          (* the island is removed *)
  | EInput (text : string)            (* the text of the input element changes:
                                         the user edits it, or the engine
                                         formats it *)
  | EEngine (iti : Iti)               (* the readings of the engine change *)
  | EFire (h : Handler) (checked : bool) (value : NumberTypeFilter).
      (* a handler is called; [checked] and [value] are those of the
         element ([e.target]) *)

(** The handler called with the element's [checked] and [value]. *)
Definition fire (h : Handler) (checked : bool) (value : NumberTypeFilter)
    (p : Page) : option Page :=
  match h with
  | HValidate => Some (with_signals (handleValidate (signals p)) p)
  | HClear => Some (with_signals (handleClear (signals p)) p)
  | HStrictModeChange => Some (with_signals (set_strictMode checked (signals p)) p)
  | HNumberTypeChange =>
      Some (with_signals (set_numberTypeFilter value (signals p)) p)
  | HCopyNational => copyField nationalNumber p
  | HCopyInternational => copyField internationalNumber p
  end.

Definition step (e : Event) (p : Page) : option Page :=
  if unmounted p then Some p
  else
    match e with
    | EMountEffect iti =>
        if mountEffectRan p then Some p
        else
          Some (mountEffect iti (set_mountEffectRan p))
    | EStrictModeEffect iti => Some (strictModeEffect iti p)
    | EUnmount => Some (mountCleanup p)
    | EInput text =>
        let st := signals p in
        Some (with_signals
                {| inputRef := (fun _ => text) <$> inputRef st;
                   itiRef := itiRef st;
                   strictMode := strictMode st;
                   numberTypeFilter := numberTypeFilter st;
                   result := result st;
                   isLoading := isLoading st |} p)
    | EEngine iti =>
        let st := signals p in
        Some (with_signals
                {| inputRef := inputRef st;
                   itiRef := (fun _ => iti) <$> itiRef st;
                   strictMode := strictMode st;
                   numberTypeFilter := numberTypeFilter st;
                   result := result st;
                   isLoading := isLoading st |} p)
    | EFire h checked value => fire h checked value p
    end.

(** A sequence of events, oldest first; [None] when a handler threw. *)
Fixpoint run (events : list Event) (p : Page) : option Page :=
  match events with
  | [] => Some p
  | e :: rest =>
      match step e p with
      | Some p' => run rest p'
      | None => None
      end
  end.

(** ** The earlier revision of the island (routes/index.tsx) *)

Module LegacyIsland.

(** [window.intlTelInputUtils], as declared at the end of that file: the
    utilities of the engine, present once their script is loaded. *)
Record NumberFormatIds : Type := mkNumberFormatIds {
  E164 : Z;
  INTERNATIONAL : Z;
  NATIONAL : Z;
  RFC3966 : Z
}.

Record Utils : Type := mkUtils {
  utils_numberFormat : option NumberFormatIds;   (* [numberFormat?] *)
  utils_numberType : option (list (string * Z))  (* [numberType?] *)
}.

Definition errorMessages : gmap Z string :=
  list_to_map
    [ (0, "Invalid number");
      (1, "Invalid country code");
      (2, "Number too short");
      (3, "Number too long");
      (4, "Invalid length") ].

(** [errorMessages[errorCode] || "Invalid number"] *)
Definition lookupErrorMessage (errorCode : Z) : string :=
  js_or_undefined (errorMessages !! errorCode) "Invalid number".

(** [iti.getNumber(format)] where [format] may be [undefined]; [plain] is
    what the engine returns in that case. *)
Definition getNumberIn (iti : Iti) (plain : string) (format : option Z)
  : string :=
  match format with
  | Some f => getNumber iti f
  | None => plain
  end.

(** The body of [handleValidate] after its guard. *)
Definition validate (utils : option Utils) (plain : string)
    (iti : Iti) (value : string) (filter : NumberTypeFilter)
  : ValidationResult :=
  let isValid := isValidNumber iti in
  let numberData := getSelectedCountryData iti in
  if negb isValid then
    let errorCode := getValidationError iti in
    {| isValid := false;
       number := value;
       countryCode := countryCodeOf numberData;
       countryName := countryNameOf numberData;
       nationalNumber := "";
       internationalNumber := "";
       numberType := "";
       errorMessage := Some (lookupErrorMessage errorCode) |}
  else
    let numberType := getNumberType iti in
    let numberTypeKey := Legacy.numberTypeKey (utils ≫= utils_numberType) numberType in
    let labelOrKey :=
      js_or_undefined (Legacy.numberTypeLabels !! numberTypeKey) numberTypeKey in
    let national :=
      js_or (getNumberIn iti plain (NATIONAL <$> (utils ≫= utils_numberFormat))) "" in
    let international :=
      js_or (getNumberIn iti plain (INTERNATIONAL <$> (utils ≫= utils_numberFormat)))
            "" in
    (* Check type filter *)
    if negb (bool_decide (filter = any))
       && (bool_decide (filter = mobile)
           && negb (Legacy.isMobile numberTypeKey)) then
      {| isValid := false;
         number := value;
         countryCode := countryCodeOf numberData;
         countryName := countryNameOf numberData;
         nationalNumber := national;
         internationalNumber := international;
         numberType := labelOrKey;
         errorMessage := Some ("Expected mobile number, got " ++ labelOrKey) |}
    else if negb (bool_decide (filter = any))
       && (bool_decide (filter = fixed_line)
           && negb (Legacy.isFixedLine numberTypeKey)) then
      {| isValid := false;
         number := value;
         countryCode := countryCodeOf numberData;
         countryName := countryNameOf numberData;
         nationalNumber := national;
         internationalNumber := international;
         numberType := labelOrKey;
         errorMessage :=
           Some ("Expected fixed line number, got " ++ labelOrKey) |}
    else
      {| isValid := true;
         number := value;
         countryCode := countryCodeOf numberData;
         countryName := countryNameOf numberData;
         nationalNumber := national;
         internationalNumber := international;
         numberType := labelOrKey;
         errorMessage := None |}.

(** [handleValidate] of that revision: its guard does not look at
    [isLoading]. *)
Definition handleValidate (utils : option Utils) (plain : string)
    (st : State) : State :=
  match itiRef st, inputRef st with
  | Some iti, Some value =>
      set_result
        (Some (validate utils plain iti value (numberTypeFilter st))) st
  | _, _ => st
  end.

End LegacyIsland.

(** The utilities of the engine with the IDs of libphonenumber. *)
Definition libphonenumberUtils : LegacyIsland.Utils :=
  {| LegacyIsland.utils_numberFormat :=
       Some {| LegacyIsland.E164 := NumberFormat.E164;
               LegacyIsland.INTERNATIONAL := NumberFormat.INTERNATIONAL;
               LegacyIsland.NATIONAL := NumberFormat.NATIONAL;
               LegacyIsland.RFC3966 := NumberFormat.RFC3966 |};
     LegacyIsland.utils_numberType := Some numberTypeEnum |}.

(** ** More sample data *)

(** A number the engine accepts while its formatting utilities return
    nothing. *)
Definition unformattedNumber : Iti :=
  {| isValidNumber := true;
     getValidationError := 0;
     getSelectedCountryData :=
       {| iso2 := Some "us"; name := Some "United States" |};
     getNumberType := NumberType.MOBILE;
     getNumber := fun _ => "" |}.

(** ** What every reachable page satisfies *)

(** On the signals: the island has left the loading state exactly when an
    engine exists; an engine exists only on an input element; a verdict is
    on display only when an engine exists, and it is one [validate]
    produced. *)
Definition signalsInv (st : State) : Prop :=
  (isLoading st = false <-> is_Some (itiRef st))
  /\ (is_Some (itiRef st) -> is_Some (inputRef st))
  /\ (is_Some (result st) -> is_Some (itiRef st))
  /\ (forall r : ValidationResult,
        result st = Some r ->
        exists (iti : Iti) (value : string) (f : NumberTypeFilter),
          r = validate iti value f).

(** On the engine instances: [itiRef.current] is the newest instance; the
    first effect created the oldest one; the only live instance is the
    current one, until the cleanup of the first effect destroys the
    instance that effect created; every older instance was destroyed
    once. *)
Definition instancesInv (p : Page) : Prop :=
  (is_Some (itiRef (signals p)) <-> is_Some (currentInstance p))
  /\ (is_Some (currentInstance p) <-> is_Some (mountInstance p))
  /\ (is_Some (mountInstance p) -> mountEffectRan p = true)
  /\ (forall m c : nat,
        mountInstance p = Some m -> currentInstance p = Some c ->
        (m <= c < created (engineCalls p))%nat)
  /\ live (engineCalls p) =
       match currentInstance p with
       | Some c =>
           if bool_decide (unmounted p = true /\ mountInstance p = Some c)
           then [] else [c]
       | None => []
       end
  /\ (forall i : nat,
        destroyCount i (engineCalls p) =
          ((if bool_decide ((i < created (engineCalls p))%nat
                            /\ currentInstance p <> Some i)
            then 1 else 0)
           + (if bool_decide (unmounted p = true /\ mountInstance p = Some i)
              then 1 else 0))%nat).

Definition pageInv (p : Page) : Prop :=
  signalsInv (signals p) /\ instancesInv p.

(** * Properties *)

(** Exposes the numeric IDs behind the names of [NumberType]. *)
Ltac unfold_NumberType :=
  unfold NumberType.FIXED_LINE, NumberType.MOBILE,
    NumberType.FIXED_LINE_OR_MOBILE, NumberType.TOLL_FREE,
    NumberType.PREMIUM_RATE, NumberType.SHARED_COST, NumberType.VOIP,
    NumberType.PERSONAL_NUMBER, NumberType.PAGER, NumberType.UAN,
    NumberType.VOICEMAIL, NumberType.UNKNOWN in *.

(** ** The JavaScript operators *)

Lemma js_or_empty_default (s : string) : js_or s "" = s.
Proof. by destruct s. Qed.

Lemma js_or_nonempty (s d : string) : s <> "" -> js_or s d = s.
Proof. by destruct s. Qed.

Lemma js_or_undefined_nonempty (v : option string) (d : string) :
  d <> "" -> js_or_undefined v d <> "".
Proof. destruct v as [[|c s]|]; simpl; intros Hd; done. Qed.

Lemma append_prefix_nonempty (c : ascii) (p s : string) :
  String c p ++ s <> "".
Proof. done. Qed.

(** ** The lookup tables *)

(** A table entry is never the empty string, so [||] keeps it. *)
Lemma errorMessages_entry_nonempty (code : Z) (m : string) :
  errorMessages !! code = Some m -> m <> "".
Proof.
  intros Hm. apply elem_of_list_to_map_2 in Hm.
  repeat (apply elem_of_cons in Hm as [Hm|Hm]; [by inversion Hm|]).
  by apply elem_of_nil in Hm.
Qed.

Lemma numberTypeLabels_entry_nonempty (t : Z) (l : string) :
  numberTypeLabels !! t = Some l -> l <> "".
Proof.
  intros Hl. apply elem_of_list_to_map_2 in Hl.
  repeat (apply elem_of_cons in Hl as [Hl|Hl]; [by inversion Hl|]).
  by apply elem_of_nil in Hl.
Qed.

(** The keys of the two tables. *)
Lemma errorMessages_lookup_None (code : Z) :
  errorMessages !! code = None <->
  code <> 1 /\ code <> 2 /\ code <> 3 /\ code <> 4 /\ code <> 5 /\ code <> -99.
Proof.
  unfold errorMessages. rewrite <- not_elem_of_list_to_map. simpl.
  rewrite !not_elem_of_cons. split.
  - intros (?&?&?&?&?&?&_). done.
  - intros (?&?&?&?&?&?). repeat split; try done. apply not_elem_of_nil.
Qed.

Lemma numberTypeLabels_lookup_None (t : Z) :
  numberTypeLabels !! t = None <-> (t < -1 \/ 10 < t).
Proof.
  unfold numberTypeLabels. rewrite <- not_elem_of_list_to_map. simpl.
  rewrite !not_elem_of_cons. unfold_NumberType.
  split.
  - intros (?&?&?&?&?&?&?&?&?&?&?&?&_). lia.
  - intros Ht. repeat split; try lia. apply not_elem_of_nil.
Qed.

Lemma lookupErrorMessage_entry (code : Z) (m : string) :
  errorMessages !! code = Some m -> lookupErrorMessage code = m.
Proof.
  intros Hm. unfold lookupErrorMessage. rewrite Hm. simpl.
  apply js_or_nonempty. by eapply errorMessages_entry_nonempty.
Qed.

Lemma lookupErrorMessage_fallback (code : Z) :
  errorMessages !! code = None -> lookupErrorMessage code = "Invalid number".
Proof. intros Hm. unfold lookupErrorMessage. by rewrite Hm. Qed.

Lemma label_entry (t : Z) (l : string) :
  numberTypeLabels !! t = Some l -> label t = l.
Proof.
  intros Hl. unfold label. rewrite Hl. simpl.
  apply js_or_nonempty. by eapply numberTypeLabels_entry_nonempty.
Qed.

Lemma label_fallback (t : Z) :
  numberTypeLabels !! t = None -> label t = "Unknown".
Proof. intros Hl. unfold label. by rewrite Hl. Qed.

Lemma label_nonempty (t : Z) : label t <> "".
Proof. by apply js_or_undefined_nonempty. Qed.

Lemma lookupErrorMessage_nonempty (code : Z) : lookupErrorMessage code <> "".
Proof. by apply js_or_undefined_nonempty. Qed.

(** ** The branches of [validate] *)

Lemma isMobileType_spec (t : Z) :
  isMobileType t = true <->
  t = NumberType.MOBILE \/ t = NumberType.FIXED_LINE_OR_MOBILE.
Proof. unfold isMobileType. rewrite orb_true_iff, !Z.eqb_eq. done. Qed.

Lemma isFixedLineType_spec (t : Z) :
  isFixedLineType t = true <->
  t = NumberType.FIXED_LINE \/ t = NumberType.FIXED_LINE_OR_MOBILE.
Proof. unfold isFixedLineType. rewrite orb_true_iff, !Z.eqb_eq. done. Qed.

Lemma validate_invalid (iti : Iti) (value : string) (f : NumberTypeFilter) :
  isValidNumber iti = false ->
  validate iti value f =
    {| isValid := false;
       number := value;
       countryCode := countryCodeOf (getSelectedCountryData iti);
       countryName := countryNameOf (getSelectedCountryData iti);
       nationalNumber := "";
       internationalNumber := "";
       numberType := "";
       errorMessage := Some (lookupErrorMessage (getValidationError iti)) |}.
Proof. intros Hv. unfold validate. by rewrite Hv. Qed.

Lemma validate_mismatch_mobile (iti : Iti) (value : string) :
  isValidNumber iti = true ->
  isMobileType (getNumberType iti) = false ->
  validate iti value mobile =
    {| isValid := false;
       number := value;
       countryCode := countryCodeOf (getSelectedCountryData iti);
       countryName := countryNameOf (getSelectedCountryData iti);
       nationalNumber := getNumber iti NumberFormat.NATIONAL;
       internationalNumber := getNumber iti NumberFormat.INTERNATIONAL;
       numberType := label (getNumberType iti);
       errorMessage :=
         Some ("Expected mobile number, got " ++ label (getNumberType iti)) |}.
Proof.
  intros Hv Ht. unfold validate, isMobileType in *. rewrite Hv. simpl.
  rewrite Ht. simpl. by rewrite !js_or_empty_default.
Qed.

Lemma validate_mismatch_fixed_line (iti : Iti) (value : string) :
  isValidNumber iti = true ->
  isFixedLineType (getNumberType iti) = false ->
  validate iti value fixed_line =
    {| isValid := false;
       number := value;
       countryCode := countryCodeOf (getSelectedCountryData iti);
       countryName := countryNameOf (getSelectedCountryData iti);
       nationalNumber := getNumber iti NumberFormat.NATIONAL;
       internationalNumber := getNumber iti NumberFormat.INTERNATIONAL;
       numberType := label (getNumberType iti);
       errorMessage :=
         Some ("Expected fixed line number, got " ++ label (getNumberType iti)) |}.
Proof.
  intros Hv Ht. unfold validate, isFixedLineType in *. rewrite Hv. simpl.
  rewrite Ht. simpl. by rewrite !js_or_empty_default.
Qed.

Lemma validate_accept (iti : Iti) (value : string) (f : NumberTypeFilter) :
  isValidNumber iti = true ->
  rejects f (getNumberType iti) = false ->
  validate iti value f =
    {| isValid := true;
       number := value;
       countryCode := countryCodeOf (getSelectedCountryData iti);
       countryName := countryNameOf (getSelectedCountryData iti);
       nationalNumber := getNumber iti NumberFormat.NATIONAL;
       internationalNumber := getNumber iti NumberFormat.INTERNATIONAL;
       numberType := label (getNumberType iti);
       errorMessage := None |}.
Proof.
  intros Hv Hr. unfold validate, rejects, isMobileType, isFixedLineType in *.
  rewrite Hv. simpl.
  destruct f; simpl in *.
  - apply negb_false_iff in Hr. rewrite Hr. simpl.
    by rewrite !js_or_empty_default.
  - apply negb_false_iff in Hr. rewrite Hr. simpl.
    by rewrite !js_or_empty_default.
  - by rewrite !js_or_empty_default.
Qed.

(** The three outcomes, by cases on the engine verdict and on [rejects]. *)
Lemma validate_cases (iti : Iti) (value : string) (f : NumberTypeFilter) :
  (isValidNumber iti = false /\
   isValid (validate iti value f) = false /\
   errorMessage (validate iti value f) =
     Some (lookupErrorMessage (getValidationError iti)))
  \/
  (isValidNumber iti = true /\ rejects f (getNumberType iti) = true /\
   isValid (validate iti value f) = false /\
   exists expected : string,
     (f = mobile /\ expected = "Expected mobile number, got " \/
      f = fixed_line /\ expected = "Expected fixed line number, got ") /\
     errorMessage (validate iti value f) =
       Some (expected ++ label (getNumberType iti)))
  \/
  (isValidNumber iti = true /\ rejects f (getNumberType iti) = false /\
   isValid (validate iti value f) = true /\
   errorMessage (validate iti value f) = None).
Proof.
  destruct (isValidNumber iti) eqn:Hv.
  - destruct (rejects f (getNumberType iti)) eqn:Hr.
    + right; left. repeat split; try done.
      * destruct f; simpl in Hr; try done.
        -- apply negb_true_iff in Hr. by rewrite validate_mismatch_mobile.
        -- apply negb_true_iff in Hr. by rewrite validate_mismatch_fixed_line.
      * destruct f; simpl in Hr; try done.
        -- apply negb_true_iff in Hr. eexists; split; [left; done|].
           by rewrite validate_mismatch_mobile.
        -- apply negb_true_iff in Hr. eexists; split; [right; done|].
           by rewrite validate_mismatch_fixed_line.
    + right; right. by rewrite validate_accept.
  - left. by rewrite validate_invalid.
Qed.

(** The handler on a mounted and loaded component. *)
Lemma handleValidate_ready (st : State) (iti : Iti) (value : string) :
  itiRef st = Some iti -> inputRef st = Some value -> isLoading st = false ->
  handleValidate st =
    set_result (Some (validate iti value (numberTypeFilter st))) st.
Proof. intros Hi Hr Hl. unfold handleValidate. by rewrite Hi, Hr, Hl. Qed.

(** The guard: nothing happens on an unmounted or loading component. *)
Lemma handleValidate_guard (st : State) :
  itiRef st = None \/ inputRef st = None \/ isLoading st = true ->
  handleValidate st = st.
Proof.
  unfold handleValidate. intros [H|[H|H]]; rewrite H; try done.
  - by destruct (itiRef st).
  - by destruct (itiRef st), (inputRef st).
Qed.

(** ** The verdict *)

Lemma isValid_validate (iti : Iti) (value : string) (f : NumberTypeFilter) :
  isValid (validate iti value f) =
    isValidNumber iti && negb (rejects f (getNumberType iti)).
Proof.
  destruct (validate_cases iti value f)
    as [(Hv&Hr&_)|[(Hv&Hj&Hr&_)|(Hv&Hj&Hr&_)]];
    rewrite Hr, Hv; try done; by rewrite Hj.
Qed.

(** C1. When the engine accepts the number, the final verdict is positive
    exactly when the filter is [any], or the filter is [mobile] and the type
    is MOBILE or FIXED_LINE_OR_MOBILE, or the filter is [fixed_line] and the
    type is FIXED_LINE or FIXED_LINE_OR_MOBILE; a FIXED_LINE_OR_MOBILE number
    therefore passes both the [mobile] and the [fixed_line] filter. *)
Theorem verdict_iff_filter_matches
    (iti : Iti) (value : string) (f : NumberTypeFilter) :
  isValidNumber iti = true ->
  (isValid (validate iti value f) = true <->
     f = any
     \/ (f = mobile /\
         (getNumberType iti = NumberType.MOBILE
          \/ getNumberType iti = NumberType.FIXED_LINE_OR_MOBILE))
     \/ (f = fixed_line /\
         (getNumberType iti = NumberType.FIXED_LINE
          \/ getNumberType iti = NumberType.FIXED_LINE_OR_MOBILE)))
  /\ (getNumberType iti = NumberType.FIXED_LINE_OR_MOBILE ->
      isValid (validate iti value mobile) = true
      /\ isValid (validate iti value fixed_line) = true).
Proof.
  intros Hv. split.
  - rewrite isValid_validate, Hv. simpl. rewrite negb_true_iff.
    destruct f; simpl; rewrite ?negb_false_iff.
    + rewrite isMobileType_spec. split.
      * intros Ht. right; left. done.
      * intros [Hf|[[_ Ht]|[Hf _]]]; done.
    + rewrite isFixedLineType_spec. split.
      * intros Ht. right; right. done.
      * intros [Hf|[[Hf _]|[_ Ht]]]; done.
    + split; [by left|done].
  - intros Ht. rewrite !isValid_validate, Hv, Ht. done.
Qed.

Lemma verdict_iff_filter_matches_witness :
  isValidNumber (usNumber NumberType.FIXED_LINE_OR_MOBILE) = true
  /\ isValid (validate (usNumber NumberType.FIXED_LINE_OR_MOBILE)
                "5551234567" mobile) = true
  /\ isValid (validate (usNumber NumberType.FIXED_LINE_OR_MOBILE)
                "5551234567" fixed_line) = true.
Proof.
  split; [reflexivity|].
  apply (verdict_iff_filter_matches
           (usNumber NumberType.FIXED_LINE_OR_MOBILE) "5551234567" any);
    reflexivity.
Defined.

(** C2. Whatever the engine readings and the filter, the record carries an
    [errorMessage] exactly when [isValid] is false: an accepting record has
    none, and a rejecting record has one, which is not the empty string. *)
Theorem errorMessage_iff_rejected
    (iti : Iti) (value : string) (f : NumberTypeFilter) :
  (is_Some (errorMessage (validate iti value f)) <->
     isValid (validate iti value f) = false)
  /\ (isValid (validate iti value f) = true ->
      errorMessage (validate iti value f) = None)
  /\ (isValid (validate iti value f) = false ->
      exists m : string,
        errorMessage (validate iti value f) = Some m /\ m <> "").
Proof.
  destruct (validate_cases iti value f)
    as [(_&Hr&Hm)|[(_&_&Hr&(e&He&Hm))|(_&_&Hr&Hm)]];
    rewrite Hr, Hm.
  - (* basic invalidity *)
    split; [|split].
    + split; [done|]. intros _. by eexists.
    + done.
    + intros _. eexists; split; [done|]. apply lookupErrorMessage_nonempty.
  - (* type mismatch *)
    split; [|split].
    + split; [done|]. intros _. by eexists.
    + done.
    + intros _. eexists; split; [done|].
      destruct He as [[_ ->]|[_ ->]]; apply append_prefix_nonempty.
  - (* acceptance *)
    split; [|split].
    + split; [by intros [? ?]|done].
    + done.
    + done.
Qed.

Lemma errorMessage_iff_rejected_witness :
  errorMessage (validate (usNumber NumberType.MOBILE) "5551234567" any) = None.
Proof.
  apply (errorMessage_iff_rejected (usNumber NumberType.MOBILE) "5551234567" any).
  reflexivity.
Defined.

(** C3. When the engine rejects the number, whatever the filter, the record
    has [isValid] false, empty [nationalNumber], [internationalNumber] and
    [numberType], and its [errorMessage] is the entry of [errorMessages] for
    the engine's error code (code 2 gives "Number too short"), or
    "Invalid number" when the code is not a key of the table. *)
Theorem invalid_number_result
    (iti : Iti) (value : string) (f : NumberTypeFilter) :
  isValidNumber iti = false ->
  isValid (validate iti value f) = false
  /\ nationalNumber (validate iti value f) = ""
  /\ internationalNumber (validate iti value f) = ""
  /\ numberType (validate iti value f) = ""
  /\ (forall m : string,
        errorMessages !! getValidationError iti = Some m ->
        errorMessage (validate iti value f) = Some m)
  /\ (getValidationError iti = 2 ->
      errorMessage (validate iti value f) = Some "Number too short")
  /\ (errorMessages !! getValidationError iti = None ->
      errorMessage (validate iti value f) = Some "Invalid number").
Proof.
  intros Hv. rewrite (validate_invalid _ _ _ Hv). simpl.
  repeat split.
  - intros m Hm. by rewrite (lookupErrorMessage_entry _ _ Hm).
  - intros ->. done.
  - intros Hm. by rewrite (lookupErrorMessage_fallback _ Hm).
Qed.

Lemma invalid_number_result_witness :
  isValidNumber (badNumber 2) = false
  /\ errorMessage (validate (badNumber 2) "123" any) = Some "Number too short"
  /\ errorMessage (validate (badNumber 999) "123" mobile) = Some "Invalid number".
Proof.
  split; [reflexivity|]. split.
  - apply (invalid_number_result (badNumber 2) "123" any); reflexivity.
  - apply (invalid_number_result (badNumber 999) "123" mobile); reflexivity.
Defined.

(** ** Fields copied from the engine *)

(** C4, the part that holds of the code.  When the engine accepts the
    number, whether the filter then accepts or rejects it, [nationalNumber]
    and [internationalNumber] are the engine's two formatted strings
    unchanged, and [numberType] is the display label of the engine's type
    code, which is never empty. *)
Theorem valid_number_fields
    (iti : Iti) (value : string) (f : NumberTypeFilter) :
  isValidNumber iti = true ->
  nationalNumber (validate iti value f) = getNumber iti NumberFormat.NATIONAL
  /\ internationalNumber (validate iti value f) =
       getNumber iti NumberFormat.INTERNATIONAL
  /\ numberType (validate iti value f) = label (getNumberType iti)
  /\ numberType (validate iti value f) <> "".
Proof.
  intros Hv.
  assert (Hfields :
    nationalNumber (validate iti value f) = getNumber iti NumberFormat.NATIONAL
    /\ internationalNumber (validate iti value f) =
         getNumber iti NumberFormat.INTERNATIONAL
    /\ numberType (validate iti value f) = label (getNumberType iti)).
  { destruct (rejects f (getNumberType iti)) eqn:Hr.
    - destruct f; simpl in Hr; try done; apply negb_true_iff in Hr.
      + by rewrite validate_mismatch_mobile.
      + by rewrite validate_mismatch_fixed_line.
    - by rewrite validate_accept. }
  destruct Hfields as (Hn & Hi & Ht). repeat split; try done.
  rewrite Ht. apply label_nonempty.
Qed.

Lemma valid_number_fields_witness :
  isValidNumber (usNumber NumberType.MOBILE) = true
  /\ nationalNumber (validate (usNumber NumberType.MOBILE)
                       "5551234567" fixed_line) = "(555) 123-4567"
  /\ internationalNumber (validate (usNumber NumberType.MOBILE)
                            "5551234567" fixed_line) = "+1 555-123-4567"
  /\ numberType (validate (usNumber NumberType.MOBILE)
                   "5551234567" fixed_line) = "Mobile".
Proof.
  split; [reflexivity|].
  destruct (valid_number_fields (usNumber NumberType.MOBILE)
              "5551234567" fixed_line) as (Hn & Hi & Ht & _);
    [reflexivity|].
  rewrite Hn, Hi, Ht. repeat split; reflexivity.
Defined.

(** C4 as worded fails for [numberType]: the field does not hold the
    engine's number type as provided.  For the type code 1 (MOBILE) it is the
    label "Mobile", neither the code nor the name of the enumerated value;
    and the engine's value cannot be read back from it, since the distinct
    type codes -1 and 11 both give "Unknown". *)
Lemma numberType_not_verbatim :
  isValidNumber (usNumber 1) = true
  /\ numberType (validate (usNumber 1) "5551234567" any) = "Mobile"
  /\ numberType (validate (usNumber 1) "5551234567" any) <> "1"
  /\ numberType (validate (usNumber 1) "5551234567" any) <> "MOBILE"
  /\ ~ (forall (a b : Iti) (value : string) (f : NumberTypeFilter),
          isValidNumber a = true -> isValidNumber b = true ->
          numberType (validate a value f) = numberType (validate b value f) ->
          getNumberType a = getNumberType b).
Proof.
  repeat split; try done.
  intros Hcopy.
  specialize (Hcopy (usNumber (-1)) (usNumber 11) "5551234567" any
                eq_refl eq_refl eq_refl).
  done.
Qed.

(** [toUpperCase] keeps the length and acts character by character. *)
Lemma toUpperCase_length (s : string) :
  String.length (toUpperCase s) = String.length s.
Proof. induction s as [|c s IH]; simpl; congruence. Qed.

Lemma toUpperCase_get (s : string) (i : nat) (c : ascii) :
  String.get i s = Some c ->
  String.get i (toUpperCase s) = Some (upper_ascii c).
Proof.
  revert i. induction s as [|c' s IH]; intros i; simpl; [done|].
  destruct i as [|i]; [by intros [= ->]|]. apply IH.
Qed.

Lemma toUpperCase_get_inv (s : string) (i : nat) (c : ascii) :
  String.get i (toUpperCase s) = Some c ->
  exists c0 : ascii, String.get i s = Some c0 /\ c = upper_ascii c0.
Proof.
  revert i. induction s as [|c' s IH]; intros i; simpl; [done|].
  destruct i as [|i]; [|apply IH]. intros [= <-]. by eexists.
Qed.

(** No lower-case letter a..z is left. *)
Lemma upper_ascii_not_lower (c : ascii) :
  ~ (97 <= nat_of_ascii (upper_ascii c) <= 122)%nat.
Proof.
  unfold upper_ascii.
  destruct (Nat.leb 97 (nat_of_ascii c) && Nat.leb (nat_of_ascii c) 122)
    eqn:Hlow.
  - apply andb_true_iff in Hlow as [H1 H2].
    apply Nat.leb_le in H1, H2.
    rewrite nat_ascii_embedding by lia. lia.
  - apply andb_false_iff in Hlow as [H|H]; apply Nat.leb_gt in H; lia.
Qed.

(** C10. In every outcome, also when the number is invalid, [countryCode]
    is the engine's iso2 code converted to upper case and [countryName] the
    engine's country name, each the empty string when the engine has none,
    and [number] is the text of the input.  The iso2 code is ASCII text;
    converted to upper case means: of the same length, with every letter
    a..z replaced by the letter A..Z at the same place (its character code
    less 32) and every other character kept, so that no letter a..z is
    left. *)
Theorem country_and_number_fields
    (iti : Iti) (value : string) (f : NumberTypeFilter) :
  (forall code : string,
     iso2 (getSelectedCountryData iti) = Some code ->
     isAsciiText code = true) ->
  countryCode (validate iti value f) =
    match iso2 (getSelectedCountryData iti) with
    | Some code => toUpperCase code
    | None => ""
    end
  /\ (forall code : string,
        iso2 (getSelectedCountryData iti) = Some code ->
        String.length (countryCode (validate iti value f))
          = String.length code
        /\ (forall (i : nat) (c : ascii),
              String.get i code = Some c ->
              String.get i (countryCode (validate iti value f)) =
                Some (if (97 <=? nat_of_ascii c)%nat
                         && (nat_of_ascii c <=? 122)%nat
                      then ascii_of_nat (nat_of_ascii c - 32)
                      else c))
        /\ (forall (i : nat) (c : ascii),
              String.get i (countryCode (validate iti value f)) = Some c ->
              ~ (97 <= nat_of_ascii c <= 122)%nat))
  /\ countryName (validate iti value f) =
       match name (getSelectedCountryData iti) with
       | Some n => n
       | None => ""
       end
  /\ number (validate iti value f) = value.
Proof.
  intros _.
  assert (Hc : countryCodeOf (getSelectedCountryData iti) =
               match iso2 (getSelectedCountryData iti) with
               | Some code => toUpperCase code
               | None => ""
               end).
  { unfold countryCodeOf. destruct (iso2 _); simpl; [|done].
    apply js_or_empty_default. }
  assert (Hn : countryNameOf (getSelectedCountryData iti) =
               match name (getSelectedCountryData iti) with
               | Some n => n
               | None => ""
               end).
  { unfold countryNameOf. destruct (name _); simpl; [|done].
    apply js_or_empty_default. }
  assert (Hfields :
    countryCode (validate iti value f)
      = countryCodeOf (getSelectedCountryData iti)
    /\ countryName (validate iti value f)
       = countryNameOf (getSelectedCountryData iti)
    /\ number (validate iti value f) = value).
  { destruct (isValidNumber iti) eqn:Hv.
    - destruct (rejects f (getNumberType iti)) eqn:Hr.
      + destruct f; simpl in Hr; try done; apply negb_true_iff in Hr.
        * by rewrite validate_mismatch_mobile.
        * by rewrite validate_mismatch_fixed_line.
      + by rewrite validate_accept.
    - by rewrite validate_invalid. }
  destruct Hfields as (Hcode & Hname & Hnumber).
  rewrite Hcode, Hname, Hc, Hn. split; [done|]. split; [|done].
  intros code Hiso. rewrite Hiso. split; [apply toUpperCase_length|]. split.
  - intros i c Hget. by apply toUpperCase_get.
  - intros i c Hget.
    apply toUpperCase_get_inv in Hget as (c0 & _ & ->).
    apply upper_ascii_not_lower.
Qed.

Lemma country_and_number_fields_witness :
  isAsciiText "nl" = true
  /\ countryCode (validate (nlBadNumber 1) "123" mobile) = "NL"
  /\ String.get 1 (countryCode (validate (nlBadNumber 1) "123" mobile))
     = Some "L"%char
  /\ countryName (validate (nlBadNumber 1) "123" mobile) = "Netherlands"
  /\ number (validate (nlBadNumber 1) "123" mobile) = "123".
Proof.
  destruct (country_and_number_fields (nlBadNumber 1) "123" mobile)
    as (Hcode & Hchars & Hname & Hnumber);
    [intros code [= <-]; reflexivity|].
  destruct (Hchars "nl" eq_refl) as (_ & Hget & _).
  split; [reflexivity|]. split; [rewrite Hcode; reflexivity|].
  split; [exact (Hget 1%nat "l"%char eq_refl)|].
  split; [rewrite Hname; reflexivity|exact Hnumber].
Defined.

(** The conversion on the whole alphabet, and on text without letters
    a..z. *)
Example toUpperCase_alphabet :
  toUpperCase "abcdefghijklmnopqrstuvwxyz" = "ABCDEFGHIJKLMNOPQRSTUVWXYZ"
  /\ toUpperCase "GB-09 @[`{" = "GB-09 @[`{".
Proof. split; reflexivity. Qed.

(** ** Labels and type-mismatch messages *)

(** C5. [label] gives each of the twelve enumerated number types its display
    string, and "Unknown" for every type code that is not a key of
    [numberTypeLabels] (the codes below -1 and above 10); a valid number of
    type UNKNOWN is rejected by the [mobile] and by the [fixed_line] filter
    with "Unknown" as the label in the message. *)
Theorem label_table :
  (label NumberType.FIXED_LINE = "Fixed Line"
   /\ label NumberType.MOBILE = "Mobile"
   /\ label NumberType.FIXED_LINE_OR_MOBILE = "Fixed Line or Mobile"
   /\ label NumberType.TOLL_FREE = "Toll Free"
   /\ label NumberType.PREMIUM_RATE = "Premium Rate"
   /\ label NumberType.SHARED_COST = "Shared Cost"
   /\ label NumberType.VOIP = "VoIP"
   /\ label NumberType.PERSONAL_NUMBER = "Personal Number"
   /\ label NumberType.PAGER = "Pager"
   /\ label NumberType.UAN = "UAN"
   /\ label NumberType.VOICEMAIL = "Voicemail"
   /\ label NumberType.UNKNOWN = "Unknown")
  /\ (forall t : Z, numberTypeLabels !! t = None -> label t = "Unknown")
  /\ (forall t : Z, t < -1 \/ 10 < t -> label t = "Unknown")
  /\ (forall (iti : Iti) (value : string),
        isValidNumber iti = true ->
        getNumberType iti = NumberType.UNKNOWN ->
        (isValid (validate iti value mobile) = false
         /\ errorMessage (validate iti value mobile) =
              Some "Expected mobile number, got Unknown")
        /\ (isValid (validate iti value fixed_line) = false
            /\ errorMessage (validate iti value fixed_line) =
                 Some "Expected fixed line number, got Unknown")).
Proof.
  split; [by repeat split|].
  split; [apply label_fallback|].
  split.
  - intros t Ht. apply label_fallback. by apply numberTypeLabels_lookup_None.
  - intros iti value Hv Ht.
    rewrite validate_mismatch_mobile, validate_mismatch_fixed_line
      by (done || by rewrite Ht).
    simpl. by rewrite Ht.
Qed.

Lemma label_table_witness :
  isValidNumber (usNumber NumberType.UNKNOWN) = true
  /\ getNumberType (usNumber NumberType.UNKNOWN) = NumberType.UNKNOWN
  /\ errorMessage (validate (usNumber NumberType.UNKNOWN) "5551234567" mobile) =
       Some "Expected mobile number, got Unknown"
  /\ label 42 = "Unknown".
Proof.
  destruct label_table as (_ & _ & Hout & Hunknown).
  split; [reflexivity|]. split; [reflexivity|]. split.
  - apply (Hunknown (usNumber NumberType.UNKNOWN) "5551234567");
      reflexivity.
  - apply Hout. right. reflexivity.
Defined.

(** C6. The [any] filter never rejects a number the engine accepted. *)
Theorem any_filter_accepts (iti : Iti) (value : string) :
  isValidNumber iti = true ->
  isValid (validate iti value any) = true.
Proof. intros Hv. by rewrite validate_accept. Qed.

Lemma any_filter_accepts_witness :
  isValidNumber (usNumber NumberType.PREMIUM_RATE) = true
  /\ isValid (validate (usNumber NumberType.PREMIUM_RATE) "5551234567" any)
     = true.
Proof.
  split; [reflexivity|].
  apply (any_filter_accepts (usNumber NumberType.PREMIUM_RATE) "5551234567").
  reflexivity.
Defined.

(** C7. On a type mismatch (the engine accepted the number, the filter is
    [mobile] or [fixed_line], and the type does not match it) the record is
    a rejection whose [errorMessage] is "Expected mobile number, got "
    (respectively "Expected fixed line number, got ") followed by the label
    of the engine's number type. *)
Theorem type_mismatch_message (iti : Iti) (value : string) :
  isValidNumber iti = true ->
  (getNumberType iti <> NumberType.MOBILE ->
   getNumberType iti <> NumberType.FIXED_LINE_OR_MOBILE ->
   isValid (validate iti value mobile) = false
   /\ errorMessage (validate iti value mobile) =
        Some ("Expected mobile number, got " ++ label (getNumberType iti)))
  /\ (getNumberType iti <> NumberType.FIXED_LINE ->
      getNumberType iti <> NumberType.FIXED_LINE_OR_MOBILE ->
      isValid (validate iti value fixed_line) = false
      /\ errorMessage (validate iti value fixed_line) =
           Some ("Expected fixed line number, got "
                 ++ label (getNumberType iti))).
Proof.
  intros Hv. split; intros H1 H2.
  - rewrite validate_mismatch_mobile; [done|done|].
    apply not_true_is_false. rewrite isMobileType_spec. by intros [?|?].
  - rewrite validate_mismatch_fixed_line; [done|done|].
    apply not_true_is_false. rewrite isFixedLineType_spec. by intros [?|?].
Qed.

Lemma type_mismatch_message_witness :
  isValidNumber (usNumber NumberType.MOBILE) = true
  /\ getNumberType (usNumber NumberType.MOBILE) <> NumberType.FIXED_LINE
  /\ getNumberType (usNumber NumberType.MOBILE)
       <> NumberType.FIXED_LINE_OR_MOBILE
  /\ errorMessage (validate (usNumber NumberType.MOBILE)
                     "5551234567" fixed_line) =
       Some "Expected fixed line number, got Mobile".
Proof.
  split; [reflexivity|]. split; [discriminate|]. split; [discriminate|].
  apply (type_mismatch_message (usNumber NumberType.MOBILE) "5551234567");
    [reflexivity|discriminate|discriminate].
Defined.

(** ** The earlier revision *)

(** A type code in -1..10 is one of the twelve IDs. *)
Lemma numberType_in_range (t : Z) :
  ~ (t < -1 \/ 10 < t) ->
  t = -1 \/ t = 0 \/ t = 1 \/ t = 2 \/ t = 3 \/ t = 4 \/ t = 5
  \/ t = 6 \/ t = 7 \/ t = 8 \/ t = 9 \/ t = 10.
Proof. lia. Qed.

(** Splits on the twelve IDs of a type code known to be in range and closes
    each case by evaluation. *)
Ltac by_numberType_cases Hin :=
  let Hcases := fresh "Hcases" in
  pose proof (numberType_in_range _ Hin) as Hcases;
  repeat (destruct Hcases as [->|Hcases]; [reflexivity|]);
  subst; reflexivity.

(** A code outside the enumeration is resolved to "UNKNOWN". *)
Lemma legacy_numberTypeKey_fallback (t : Z) :
  t < -1 \/ 10 < t ->
  Legacy.numberTypeKey (Some numberTypeEnum) t = "UNKNOWN".
Proof.
  intros Hout. unfold Legacy.numberTypeKey, numberTypeEnum. unfold_NumberType.
  cbn -[Z.eqb].
  repeat match goal with
         | |- context [(?a =? t)%Z] =>
             rewrite (proj2 (Z.eqb_neq a t)) by lia
         end.
  reflexivity.
Qed.

(** The earlier revision names the types as the current one does: with the
    engine's enumeration being the libphonenumber one, both revisions give
    every type code the same label and the same two flags; without the
    engine's utilities every label is "Unknown". *)
Lemma legacy_label_agrees (t : Z) :
  Legacy.label (Some numberTypeEnum) t = label t.
Proof.
  destruct (decide (t < -1 \/ 10 < t)) as [Hout|Hin].
  - rewrite label_fallback by by apply numberTypeLabels_lookup_None.
    unfold Legacy.label. by rewrite legacy_numberTypeKey_fallback.
  - by_numberType_cases Hin.
Qed.

Lemma legacy_isMobile_agrees (t : Z) :
  Legacy.isMobile (Legacy.numberTypeKey (Some numberTypeEnum) t)
  = isMobileType t.
Proof.
  destruct (decide (t < -1 \/ 10 < t)) as [Hout|Hin].
  - rewrite legacy_numberTypeKey_fallback by done.
    symmetry. apply not_true_is_false. rewrite isMobileType_spec.
    unfold_NumberType. lia.
  - by_numberType_cases Hin.
Qed.

Lemma legacy_isFixedLine_agrees (t : Z) :
  Legacy.isFixedLine (Legacy.numberTypeKey (Some numberTypeEnum) t)
  = isFixedLineType t.
Proof.
  destruct (decide (t < -1 \/ 10 < t)) as [Hout|Hin].
  - rewrite legacy_numberTypeKey_fallback by done.
    symmetry. apply not_true_is_false. rewrite isFixedLineType_spec.
    unfold_NumberType. lia.
  - by_numberType_cases Hin.
Qed.

Lemma legacy_label_no_utils (t : Z) : Legacy.label None t = "Unknown".
Proof. reflexivity. Qed.

(** ** The handler as a state transformer *)

Lemma handleValidate_frame (st : State) :
  inputRef (handleValidate st) = inputRef st
  /\ itiRef (handleValidate st) = itiRef st
  /\ strictMode (handleValidate st) = strictMode st
  /\ numberTypeFilter (handleValidate st) = numberTypeFilter st
  /\ isLoading (handleValidate st) = isLoading st.
Proof.
  unfold handleValidate.
  destruct (itiRef st) eqn:Hi, (inputRef st) eqn:Hr, (isLoading st) eqn:Hl;
    simpl; by rewrite ?Hi, ?Hr, ?Hl.
Qed.

Lemma handleValidate_readyState
    (iti : Iti) (value : string) (f : NumberTypeFilter)
    (strict : bool) (r : option ValidationResult) :
  handleValidate (readyState iti value f strict r) =
    readyState iti value f strict (Some (validate iti value f)).
Proof. reflexivity. Qed.

(** C8. The strict-mode flag plays no part in the verdict.  Running the
    handler commutes with any change of the flag; two runs on the same
    engine readings, input text and filter store the same record whatever
    the two values of the flag (and whatever verdicts were shown before);
    the flag is what the engine's configuration receives. *)
Theorem strictMode_not_read :
  (forall (st : State) (b : bool),
     handleValidate (set_strictMode b st) =
       set_strictMode b (handleValidate st))
  /\ (forall (iti : Iti) (value : string) (f : NumberTypeFilter)
             (strict1 strict2 : bool) (r1 r2 : option ValidationResult),
        result (handleValidate (readyState iti value f strict1 r1)) =
          result (handleValidate (readyState iti value f strict2 r2)))
  /\ (forall (st : State) (b : bool),
        opt_strictMode (itiOptions (set_strictMode b st)) = b).
Proof.
  split; [|split].
  - intros st b. unfold handleValidate. simpl.
    by destruct (itiRef st), (inputRef st), (isLoading st).
  - intros. by rewrite !handleValidate_readyState.
  - done.
Qed.

(** C9. The verdict is a function of the engine readings, the input text and
    the filter alone, and producing it touches nothing else: the handler
    changes no signal other than [result]; two runs from states that agree
    on the readings, the text and the filter store identical records; and
    running the handler a second time changes nothing. *)
Theorem handleValidate_deterministic :
  (forall st : State,
     inputRef (handleValidate st) = inputRef st
     /\ itiRef (handleValidate st) = itiRef st
     /\ strictMode (handleValidate st) = strictMode st
     /\ numberTypeFilter (handleValidate st) = numberTypeFilter st
     /\ isLoading (handleValidate st) = isLoading st)
  /\ (forall (st1 st2 : State) (iti : Iti) (value : string),
        itiRef st1 = Some iti -> itiRef st2 = Some iti ->
        inputRef st1 = Some value -> inputRef st2 = Some value ->
        isLoading st1 = false -> isLoading st2 = false ->
        numberTypeFilter st1 = numberTypeFilter st2 ->
        result (handleValidate st1) = result (handleValidate st2)
        /\ result (handleValidate st1) =
             Some (validate iti value (numberTypeFilter st1)))
  /\ (forall st : State,
        handleValidate (handleValidate st) = handleValidate st).
Proof.
  split; [|split].
  - apply handleValidate_frame.
  - intros st1 st2 iti value Hi1 Hi2 Hr1 Hr2 Hl1 Hl2 Hf.
    rewrite (handleValidate_ready st1 iti value),
            (handleValidate_ready st2 iti value) by done.
    simpl. by rewrite Hf.
  - intros st. unfold handleValidate.
    destruct (itiRef st) eqn:Hi, (inputRef st) eqn:Hr, (isLoading st) eqn:Hl;
      simpl; by rewrite ?Hi, ?Hr, ?Hl.
Qed.

Lemma handleValidate_deterministic_witness :
  result (handleValidate
            (readyState (usNumber NumberType.MOBILE) "5551234567"
               fixed_line false None)) =
  result (handleValidate
            (readyState (usNumber NumberType.MOBILE) "5551234567"
               fixed_line true
               (Some (validate (badNumber 2) "123" any)))).
Proof.
  destruct handleValidate_deterministic as (_ & Hsame & _).
  apply (Hsame _ _ (usNumber NumberType.MOBILE) "5551234567");
    reflexivity.
Defined.

Lemma strictMode_not_read_witness :
  result (handleValidate
            (readyState (usNumber NumberType.MOBILE) "5551234567"
               mobile false None)) =
  result (handleValidate
            (readyState (usNumber NumberType.MOBILE) "5551234567"
               mobile true None)).
Proof. apply strictMode_not_read. Defined.

(** ** Worked scenarios *)

Example scenario_too_short :
  validate (badNumber 2) "123" any =
    {| isValid := false; number := "123";
       countryCode := ""; countryName := "";
       nationalNumber := ""; internationalNumber := ""; numberType := "";
       errorMessage := Some "Number too short" |}.
Proof. reflexivity. Qed.

Example scenario_mobile_any :
  validate (usNumber NumberType.MOBILE) "5551234567" any =
    {| isValid := true; number := "5551234567";
       countryCode := "US"; countryName := "United States";
       nationalNumber := "(555) 123-4567";
       internationalNumber := "+1 555-123-4567";
       numberType := "Mobile";
       errorMessage := None |}.
Proof. reflexivity. Qed.

Example scenario_mobile_fixed_line :
  validate (usNumber NumberType.MOBILE) "5551234567" fixed_line =
    {| isValid := false; number := "5551234567";
       countryCode := "US"; countryName := "United States";
       nationalNumber := "(555) 123-4567";
       internationalNumber := "+1 555-123-4567";
       numberType := "Mobile";
       errorMessage := Some "Expected fixed line number, got Mobile" |}.
Proof. reflexivity. Qed.

Example scenario_unrecognised_code :
  errorMessage (validate (badNumber 999) "123" any) = Some "Invalid number"
  /\ errorMessage (validate (badNumber 0) "123" any) = Some "Invalid number"
  /\ errorMessage (validate (badNumber (-99)) "123" any) =
       Some "Validation unavailable".
Proof. repeat split. Qed.

Example scenario_loading :
  handleValidate
    {| inputRef := Some "5551234567";
       itiRef := Some (usNumber NumberType.MOBILE);
       strictMode := false; numberTypeFilter := any;
       result := None; isLoading := true |}
  = {| inputRef := Some "5551234567";
       itiRef := Some (usNumber NumberType.MOBILE);
       strictMode := false; numberTypeFilter := any;
       result := None; isLoading := true |}.
Proof. reflexivity. Qed.

(** * Further properties of the island *)

#[local] Set Warnings "-clear-no-such-hyp".

(** ** What the tables tell apart *)

Lemma label_in_table (t : Z) :
  0 <= t <= 10 ->
  t = 0 \/ t = 1 \/ t = 2 \/ t = 3 \/ t = 4 \/ t = 5
  \/ t = 6 \/ t = 7 \/ t = 8 \/ t = 9 \/ t = 10.
Proof. lia. Qed.

(** Replaces a type code known to lie in 0..10 by each of its eleven
    values. *)
Ltac each_known_type H :=
  apply label_in_table in H;
  repeat (destruct H as [->|H]); try subst.

(** X1. The label shown for a number type identifies the type, except that
    "Unknown" stands both for the type UNKNOWN and for every code outside
    the table: [label t] is "Unknown" exactly when [t] is not one of the
    codes 0..10, and two codes in 0..10 with the same label are equal. *)
Theorem label_identifies_known_types :
  (forall t : Z, label t = "Unknown" <-> ~ (0 <= t <= 10))
  /\ (forall t1 t2 : Z,
        0 <= t1 <= 10 -> 0 <= t2 <= 10 -> label t1 = label t2 -> t1 = t2).
Proof.
  split.
  - intros t. split.
    + intros Hl Hin. each_known_type Hin; vm_compute in Hl; discriminate.
    + intros Hout. destruct (decide (t = -1)) as [->|Hne]; [reflexivity|].
      apply label_fallback, numberTypeLabels_lookup_None. lia.
  - intros t1 t2 H1 H2 Hl.
    each_known_type H1; each_known_type H2;
      first [reflexivity | vm_compute in Hl; discriminate].
Qed.

Lemma label_identifies_known_types_witness :
  label 11 = "Unknown" /\ (label 3 = label 3 -> 3 = 3).
Proof.
  destruct label_identifies_known_types as [Hunknown Hinj].
  split.
  - apply Hunknown. lia.
  - apply Hinj; lia.
Defined.

(** X2. The generic message "Invalid number" is given for exactly the error
    codes that are not keys of [errorMessages], and two keys of the table
    with the same message are equal: the message identifies the error code
    whenever the code is known. *)
Theorem errorMessage_identifies_known_codes :
  (forall code : Z,
     lookupErrorMessage code = "Invalid number" <->
     errorMessages !! code = None)
  /\ (forall c1 c2 : Z,
        is_Some (errorMessages !! c1) -> is_Some (errorMessages !! c2) ->
        lookupErrorMessage c1 = lookupErrorMessage c2 -> c1 = c2).
Proof.
  assert (Hkeys : forall c : Z, is_Some (errorMessages !! c) ->
            c = 1 \/ c = 2 \/ c = 3 \/ c = 4 \/ c = 5 \/ c = -99).
  { intros c Hc.
    destruct (decide (c <> 1 /\ c <> 2 /\ c <> 3 /\ c <> 4 /\ c <> 5
                      /\ c <> -99)) as [Hout|Hin]; [|lia].
    apply errorMessages_lookup_None in Hout. rewrite Hout in Hc.
    by destruct Hc. }
  split.
  - intros code. split; [|apply lookupErrorMessage_fallback].
    intros Hm. destruct (errorMessages !! code) as [m|] eqn:Hlook; [|done].
    destruct (Hkeys code) as [->|[->|[->|[->|[->| ->]]]]];
      [by rewrite Hlook| | | | | |]; vm_compute in Hm; discriminate.
  - intros c1 c2 H1 H2 Hm.
    destruct (Hkeys c1 H1) as [->|[->|[->|[->|[->| ->]]]]];
      destruct (Hkeys c2 H2) as [->|[->|[->|[->|[->| ->]]]]];
      first [reflexivity | vm_compute in Hm; discriminate].
Qed.

Lemma errorMessage_identifies_known_codes_witness :
  errorMessages !! 0 = None /\ lookupErrorMessage 0 = "Invalid number".
Proof.
  split; [reflexivity|].
  apply errorMessage_identifies_known_codes. reflexivity.
Defined.

(** ** Telling the three outcomes apart *)

(** X3. The stored record alone tells which of the three outcomes occurred:
    [isValid] is true exactly on acceptance; among the rejections,
    [numberType] is empty exactly when the engine itself rejected the
    number, and non-empty exactly on a type mismatch. *)
Theorem outcome_readable_from_record
    (iti : Iti) (value : string) (f : NumberTypeFilter) :
  (isValid (validate iti value f) = true <->
     isValidNumber iti = true /\ rejects f (getNumberType iti) = false)
  /\ (numberType (validate iti value f) = "" <-> isValidNumber iti = false)
  /\ (isValid (validate iti value f) = false
      /\ numberType (validate iti value f) <> "" <->
      isValidNumber iti = true /\ rejects f (getNumberType iti) = true).
Proof.
  assert (Hnt : numberType (validate iti value f) = "" <->
                isValidNumber iti = false).
  { destruct (isValidNumber iti) eqn:Hv.
    - destruct (rejects f (getNumberType iti)) eqn:Hr.
      + destruct f; simpl in Hr; try done; apply negb_true_iff in Hr.
        * rewrite validate_mismatch_mobile by done. simpl.
          split; [|done]. intros Hl. by apply label_nonempty in Hl.
        * rewrite validate_mismatch_fixed_line by done. simpl.
          split; [|done]. intros Hl. by apply label_nonempty in Hl.
      + rewrite validate_accept by done. simpl.
        split; [|done]. intros Hl. by apply label_nonempty in Hl.
    - by rewrite validate_invalid. }
  split; [|split; [exact Hnt|]].
  - rewrite isValid_validate, andb_true_iff, negb_true_iff. done.
  - rewrite isValid_validate, Hnt.
    destruct (isValidNumber iti), (rejects f (getNumberType iti)); simpl;
      split; intros [? ?]; done.
Qed.

Lemma outcome_readable_from_record_witness :
  isValid (validate (usNumber NumberType.MOBILE) "5551234567" fixed_line)
  = false
  /\ numberType (validate (usNumber NumberType.MOBILE) "5551234567" fixed_line)
     <> "".
Proof.
  apply (outcome_readable_from_record
           (usNumber NumberType.MOBILE) "5551234567" fixed_line).
  split; reflexivity.
Defined.

(** ** Clearing *)

Lemma handleClear_result (st : State) : result (handleClear st) = None.
Proof. reflexivity. Qed.

(** X4. [handleClear] has no guard: in every state, also while the engine is
    loading or missing, it drops the verdict and empties the input text,
    and it leaves the engine, the strict-mode flag, the filter and the
    loading flag alone.  A validation leaves no trace once cleared
    ([handleClear] after [handleValidate] is [handleClear]), and clearing
    twice is clearing once. *)
Theorem handleClear_absorbs (st : State) :
  result (handleClear st) = None
  /\ inputRef (handleClear st) = (fun _ => "") <$> inputRef st
  /\ itiRef (handleClear st) = itiRef st
  /\ strictMode (handleClear st) = strictMode st
  /\ numberTypeFilter (handleClear st) = numberTypeFilter st
  /\ isLoading (handleClear st) = isLoading st
  /\ handleClear (handleValidate st) = handleClear st
  /\ handleClear (handleClear st) = handleClear st.
Proof.
  repeat (split; [reflexivity|]). split.
  - destruct (handleValidate_frame st) as (Hi & He & Hs & Hf & Hl).
    unfold handleClear. by rewrite Hi, He, Hs, Hf, Hl.
  - unfold handleClear. simpl. by destruct (inputRef st).
Qed.

(** ** What the tree shows *)

Lemma append_empty_r (s : string) : s ++ "" = s.
Proof.
  induction s as [|c s IH]; [done|].
  change (String c (s ++ "") = String c s). by rewrite IH.
Qed.

(** The handlers of the results section: one Copy button per non-empty
    formatted number. *)
Lemma handlers_resultsSection (r : ValidationResult) :
  handlers (resultsSection r) =
    ((if bool_decide (nationalNumber r = "") then [] else [HCopyNational])
     ++ (if bool_decide (internationalNumber r = "") then []
         else [HCopyInternational]))%list.
Proof.
  unfold resultsSection.
  destruct (errorMessage r) as [[|c m]|],
           (nationalNumber r) as [|c1 n1],
           (internationalNumber r) as [|c2 n2]; reflexivity.
Qed.

Lemma handlers_render (st : State) :
  handlers (render st) =
    ([HStrictModeChange; HNumberTypeChange]
     ++ (if isLoading st then [] else [HValidate])
     ++ [HClear]
     ++ match result st with
        | Some r => handlers (resultsSection r)
        | None => []
        end)%list.
Proof.
  unfold render.
  destruct (isLoading st), (result st) as [r|]; cbn -[resultsSection handlers];
    try reflexivity.
  - cbn -[resultsSection]. by rewrite app_nil_r.
  - cbn -[resultsSection]. by rewrite app_nil_r.
Qed.

(** The error line of the results section. *)
Lemma errorLine_resultsSection (r : ValidationResult) :
  textContent <$> byClass "text-sm text-red-600" (resultsSection r) =
    match errorMessage r with
    | Some (String c m) => ["- " ++ String c m]
    | _ => []
    end.
Proof.
  unfold resultsSection.
  destruct (isValid r), (errorMessage r) as [[|c m]|],
           (nationalNumber r) as [|c1 n1],
           (internationalNumber r) as [|c2 n2];
    lazymatch goal with
    | |- _ = [] => reflexivity
    | |- _ = [?prefix ++ ?text] =>
        transitivity [prefix ++ (text ++ "")];
          [reflexivity | by rewrite append_empty_r]
    end.
Qed.

(** The verdict word of the results section, looked up under the class of
    either colour. *)
Lemma verdict_resultsSection (r : ValidationResult) :
  textContent <$>
    byClass "text-lg font-semibold text-green-700" (resultsSection r) =
    (if isValid r then ["Valid"] else [])
  /\ textContent <$>
       byClass "text-lg font-semibold text-red-700" (resultsSection r) =
       (if isValid r then [] else ["Invalid"]).
Proof.
  unfold resultsSection.
  destruct (isValid r), (errorMessage r) as [[|c m]|],
           (nationalNumber r) as [|c1 n1],
           (internationalNumber r) as [|c2 n2]; split; reflexivity.
Qed.

(** The Number Type cell of the results section. *)
Lemma typeCell_resultsSection (r : ValidationResult) :
  textContent <$> byClass "font-mono" (resultsSection r) =
    [js_or (numberType r) "â€”"].
Proof.
  unfold resultsSection.
  destruct (isValid r), (errorMessage r) as [[|c m]|],
           (nationalNumber r) as [|c1 n1],
           (internationalNumber r) as [|c2 n2];
    (transitivity [js_or (numberType r) "â€”" ++ ""];
       [reflexivity | by rewrite append_empty_r]).
Qed.

(** The fields of an accepted-by-the-engine record. *)
Lemma validate_valid_fields
    (iti : Iti) (value : string) (f : NumberTypeFilter) :
  isValidNumber iti = true ->
  nationalNumber (validate iti value f) = getNumber iti NumberFormat.NATIONAL
  /\ internationalNumber (validate iti value f) =
       getNumber iti NumberFormat.INTERNATIONAL
  /\ numberType (validate iti value f) = label (getNumberType iti).
Proof.
  intros Hv. destruct (rejects f (getNumberType iti)) eqn:Hr.
  - destruct f; simpl in Hr; try done; apply negb_true_iff in Hr.
    + by rewrite validate_mismatch_mobile.
    + by rewrite validate_mismatch_fixed_line.
  - by rewrite validate_accept.
Qed.

(** X5. The results section of a verdict produced by the handler shows the
    word "Valid" and no error line when the verdict is positive, and the
    word "Invalid" followed by exactly one error line, "- " and the error
    message, when it is negative. *)
Theorem verdict_and_error_line
    (iti : Iti) (value : string) (f : NumberTypeFilter) :
  let r := validate iti value f in
  let shown (c : string) := textContent <$> byClass c (resultsSection r) in
  (isValid r = true ->
     shown "text-lg font-semibold text-green-700" = ["Valid"]
     /\ shown "text-lg font-semibold text-red-700" = []
     /\ shown "text-sm text-red-600" = [])
  /\ (isValid r = false ->
      shown "text-lg font-semibold text-green-700" = []
      /\ shown "text-lg font-semibold text-red-700" = ["Invalid"]
      /\ exists m : string,
           errorMessage r = Some m /\ shown "text-sm text-red-600" = ["- " ++ m]).
Proof.
  intros r shown. unfold shown.
  destruct (verdict_resultsSection r) as [Hgreen Hred].
  rewrite Hgreen, Hred, errorLine_resultsSection.
  destruct (validate_cases iti value f)
    as [(_&Hr&Hm)|[(_&_&Hr&(e&He&Hm))|(_&_&Hr&Hm)]];
    fold r in Hr, Hm; rewrite Hr, Hm.
  - split; [done|]. intros _. repeat (split; [done|]).
    eexists. split; [done|].
    pose proof (lookupErrorMessage_nonempty (getValidationError iti)) as Hne.
    by destruct (lookupErrorMessage (getValidationError iti)).
  - split; [done|]. intros _. repeat (split; [done|]).
    eexists. split; [done|].
    by destruct He as [[_ ->]|[_ ->]].
  - split; done.
Qed.

Lemma verdict_and_error_line_witness :
  textContent <$>
    byClass "text-lg font-semibold text-red-700"
      (resultsSection
         (validate (usNumber NumberType.MOBILE) "5551234567" fixed_line))
  = ["Invalid"].
Proof.
  apply (verdict_and_error_line
           (usNumber NumberType.MOBILE) "5551234567" fixed_line).
  reflexivity.
Defined.

(** X6. The Number Type cell of a verdict produced by the handler is never
    blank: it shows the label of the engine's number type when the engine
    accepted the number, and the dash placeholder of the source when the
    engine rejected it. *)
Theorem number_type_cell
    (iti : Iti) (value : string) (f : NumberTypeFilter) :
  let cell :=
    textContent <$> byClass "font-mono" (resultsSection (validate iti value f))
  in
  cell = [if isValidNumber iti then label (getNumberType iti) else "â€”"]
  /\ cell <> [""].
Proof.
  intros cell. unfold cell. rewrite typeCell_resultsSection.
  destruct (isValidNumber iti) eqn:Hv.
  - destruct (validate_valid_fields iti value f Hv) as (_ & _ & ->).
    rewrite js_or_nonempty by apply label_nonempty.
    split; [done|]. intros [= Hl]. by apply label_nonempty in Hl.
  - rewrite (validate_invalid _ _ _ Hv). simpl. done.
Qed.

(** X7. Copy buttons exist only for numbers the engine accepted: the
    results section of a verdict produced by the handler offers the copy of
    the national (international) format exactly when the engine accepted
    the number and returned a non-empty national (international) string. *)
Theorem copy_buttons_for_accepted_numbers
    (iti : Iti) (value : string) (f : NumberTypeFilter) :
  (HCopyNational ∈ handlers (resultsSection (validate iti value f)) <->
     isValidNumber iti = true /\ getNumber iti NumberFormat.NATIONAL <> "")
  /\ (HCopyInternational ∈ handlers (resultsSection (validate iti value f)) <->
      isValidNumber iti = true
      /\ getNumber iti NumberFormat.INTERNATIONAL <> "").
Proof.
  rewrite handlers_resultsSection.
  destruct (isValidNumber iti) eqn:Hv.
  - destruct (validate_valid_fields iti value f Hv) as (-> & -> & _).
    split; repeat case_bool_decide; set_solver.
  - rewrite (validate_invalid _ _ _ Hv). simpl. split; set_solver.
Qed.

Lemma copy_buttons_for_accepted_numbers_witness :
  HCopyNational ∈
    handlers (resultsSection
                (validate (usNumber NumberType.MOBILE) "5551234567" fixed_line))
  /\ ~ HCopyNational ∈
       handlers (resultsSection (validate unformattedNumber "5551234567" any)).
Proof.
  split.
  - apply (copy_buttons_for_accepted_numbers
             (usNumber NumberType.MOBILE) "5551234567" fixed_line).
    split; [reflexivity|discriminate].
  - intros Hin.
    apply (copy_buttons_for_accepted_numbers
             unformattedNumber "5551234567" any) in Hin.
    destruct Hin as [_ Hne]. by apply Hne.
Defined.

(** ** The island over time *)

Lemma created_app (a b : list EngineCall) :
  created (a ++ b) = (created a + created b)%nat.
Proof.
  induction a as [|[i o|i] a IH]; simpl; [done| |done]. by rewrite IH.
Qed.

Lemma destroyCount_app (i : nat) (a b : list EngineCall) :
  destroyCount i (a ++ b) = (destroyCount i a + destroyCount i b)%nat.
Proof.
  induction a as [|[j o|j] a IH]; simpl; [done|done|]. rewrite IH. lia.
Qed.

Lemma liveAfter_app (l : list nat) (a b : list EngineCall) :
  liveAfter l (a ++ b) = liveAfter (liveAfter l a) b.
Proof.
  revert l. induction a as [|[i o|i] a IH]; intros l; simpl; [done| |];
    by rewrite IH.
Qed.

Lemma live_app (a b : list EngineCall) :
  live (a ++ b) = liveAfter (live a) b.
Proof. apply liveAfter_app. Qed.

Lemma initialPage_inv (input : option string) : pageInv (initialPage input).
Proof.
  split.
  - repeat split; simpl; try done; by intros [? ?].
  - repeat split; simpl; try done; by intros [? ?].
Qed.

(** The handlers keep the invariant of the signals. *)
Lemma handleValidate_signalsInv (st : State) :
  signalsInv st -> signalsInv (handleValidate st).
Proof.
  intros Hinv. pose proof Hinv as (Hload & Hinput & Hres & Hprov).
  unfold handleValidate.
  destruct (itiRef st) as [iti|] eqn:Hi; [|exact Hinv].
  destruct (inputRef st) as [value|] eqn:Hr; [|exact Hinv].
  destruct (isLoading st) eqn:Hl; [exact Hinv|].
  repeat split; simpl; rewrite ?Hi, ?Hr, ?Hl; try done.
  intros r [= <-]. by eexists _, _, _.
Qed.

Lemma handleClear_signalsInv (st : State) :
  signalsInv st -> signalsInv (handleClear st).
Proof.
  intros (Hload & Hinput & Hres & Hprov).
  repeat split; simpl; try apply Hload; try done.
  all: try by intros [? ?].
  intros Hi. apply Hinput in Hi as [v Hv]. rewrite Hv. by eexists.
Qed.

(** A change of the signals that keeps the engine reference defined or
    undefined keeps the invariant of the instances. *)
Lemma with_signals_inv (st : State) (p : Page) :
  pageInv p -> signalsInv st ->
  (is_Some (itiRef st) <-> is_Some (itiRef (signals p))) ->
  pageInv (with_signals st p).
Proof.
  intros [_ (Hcur & Hrest)] Hst Hsame. split; [exact Hst|].
  split; [|exact Hrest]. simpl. by rewrite Hsame.
Qed.

(** Closes the goals that say an option is, or is not, defined. *)
Ltac solve_defined :=
  first [ done
        | by eexists
        | by intros [? ?]
        | split; first [done | by eexists | by intros [? ?]] ].

(** Settles an equation between counts given by [bool_decide] tests on
    instance numbers. *)
Ltac close_atom :=
  solve [ lia | done | congruence | (intros ?; simplify_eq; lia) ].

Ltac close_count :=
  repeat case_bool_decide; destruct_and?; simplify_eq;
  repeat match goal with
         | H : Some ?a <> Some ?b |- _ =>
             assert (a <> b) by congruence; clear H
         end;
  first
    [ lia
    | exfalso;
      match goal with
      | H : ~ _ |- _ => apply H; first [close_atom | split; close_atom]
      end ].

Lemma mountEffect_inv (iti : Iti) (p : Page) :
  pageInv p -> unmounted p = false -> mountEffectRan p = false ->
  pageInv (mountEffect iti (set_mountEffectRan p)).
Proof.
  intros [Hsig Hinst] Hun Hran.
  pose proof Hsig as (Hload & Hinput & Hres & Hprov).
  pose proof Hinst as (Hcur & Hmount & Hflag & Hids & Hlive & Hdestroy).
  assert (Hnomount : mountInstance p = None).
  { destruct (mountInstance p) eqn:Hm; [|done].
    rewrite Hflag in Hran by by eexists. done. }
  assert (Hnocur : currentInstance p = None).
  { destruct (currentInstance p) eqn:Hc; [|done].
    assert (is_Some (mountInstance p)) as [? ?] by (apply Hmount; by eexists).
    congruence. }
  unfold mountEffect, set_mountEffectRan. simpl.
  destruct (inputRef (signals p)) as [text|] eqn:Hin.
  - split.
    + unfold signalsInv. simpl. split_and!; solve_defined.
    + unfold instancesInv. simpl.
      split; [solve_defined|]. split; [solve_defined|].
      split; [done|]. split; [|split].
      * intros m c [= <-] [= <-]. rewrite created_app. simpl. lia.
      * rewrite live_app, Hlive, Hnocur. simpl.
        case_bool_decide as Hd; [|done]. destruct Hd; congruence.
      * intros i. rewrite destroyCount_app, created_app, Hdestroy.
        rewrite Hnocur, Hnomount. simpl.
        close_count.
  - split; [exact Hsig|].
    unfold instancesInv. simpl.
    split; [done|]. split; [done|]. split; [done|]. done.
Qed.

Lemma filter_other_self (c : nat) :
  List.filter (fun j => negb (Nat.eqb j c)) [c] = [].
Proof. simpl. by rewrite Nat.eqb_refl. Qed.

Lemma strictModeEffect_inv (iti : Iti) (p : Page) :
  pageInv p -> unmounted p = false -> pageInv (strictModeEffect iti p).
Proof.
  intros [Hsig Hinst] Hun.
  pose proof Hsig as (Hload & Hinput & Hres & Hprov).
  pose proof Hinst as (Hcur & Hmount & Hflag & Hids & Hlive & Hdestroy).
  unfold strictModeEffect.
  destruct (itiRef (signals p)) as [old|] eqn:Hi; [|by split].
  destruct (inputRef (signals p)) as [text|] eqn:Hin; [|by split].
  assert (is_Some (currentInstance p)) as [c Hc] by (apply Hcur; by eexists).
  assert (is_Some (mountInstance p)) as [m Hm] by (apply Hmount; by eexists).
  destruct (Hids m c Hm Hc) as [Hmc Hcn].
  rewrite Hc. split.
  - unfold signalsInv. simpl. split_and!; try solve_defined.
    rewrite Hload. solve_defined.
  - unfold instancesInv. simpl.
    split; [solve_defined|]. split; [rewrite Hm; solve_defined|].
    split; [done|]. split; [|split].
    + intros m' c' Hm' [= <-]. rewrite Hm in Hm'. injection Hm' as <-.
      rewrite !created_app. simpl. lia.
    + rewrite live_app, Hlive, Hc, Hun.
      rewrite !bool_decide_eq_false_2 by (intros [? _]; done).
      simpl. by rewrite Nat.eqb_refl.
    + intros i. rewrite destroyCount_app, !created_app, Hdestroy.
      rewrite Hc, Hm, Hun. simpl.
      destruct (Nat.eqb_spec i c) as [->|Hne]; close_count.
Qed.

Lemma mountCleanup_inv (p : Page) :
  pageInv p -> unmounted p = false -> pageInv (mountCleanup p).
Proof.
  intros [Hsig Hinst] Hun.
  pose proof Hinst as (Hcur & Hmount & Hflag & Hids & Hlive & Hdestroy).
  split; [exact Hsig|].
  unfold instancesInv. simpl.
  split; [done|]. split; [done|]. split; [done|]. split; [|split].
  - intros m c Hm Hc. rewrite created_app. destruct (Hids m c Hm Hc). lia.
  - rewrite live_app, Hlive, Hun.
    destruct (currentInstance p) as [c|] eqn:Hc.
    + assert (is_Some (mountInstance p)) as [m Hm]
        by (apply Hmount; by eexists).
      rewrite Hm. rewrite bool_decide_eq_false_2 by (intros [? _]; done).
      simpl. destruct (Nat.eqb_spec c m) as [->|Hne]; simpl.
      * by rewrite bool_decide_eq_true_2.
      * rewrite bool_decide_eq_false_2; [done|]. intros [_ [= ->]]. done.
    + by destruct (mountInstance p).
  - intros i. rewrite destroyCount_app, created_app, Hdestroy, Hun.
    destruct (mountInstance p) as [m|] eqn:Hm; simpl.
    + destruct (Nat.eqb_spec i m) as [->|Hne]; close_count.
    + close_count.
Qed.

(** Every event keeps the invariant. *)
Lemma step_inv (e : Event) (p p' : Page) :
  pageInv p -> step e p = Some p' -> pageInv p'.
Proof.
  intros Hinv. unfold step.
  destruct (unmounted p) eqn:Hun; [by intros [= <-]|].
  pose proof Hinv as [Hsig Hinst].
  pose proof Hsig as (Hload & Hinput & Hres & Hprov).
  destruct e as [iti|iti| |text|iti|h checked value].
  - destruct (mountEffectRan p) eqn:Hran; intros [= <-]; [done|].
    by apply mountEffect_inv.
  - intros [= <-]. by apply strictModeEffect_inv.
  - intros [= <-]. by apply mountCleanup_inv.
  - intros [= <-]. apply with_signals_inv; [done| |done].
    unfold signalsInv. simpl. split_and!; try done.
    intros Hi. apply Hinput in Hi as [v Hv]. rewrite Hv. by eexists.
  - intros [= <-]. apply with_signals_inv; [done| |].
    + unfold signalsInv. simpl. rewrite fmap_is_Some. done.
    + simpl. by rewrite fmap_is_Some.
  - destruct h; simpl.
    + intros [= <-]. apply with_signals_inv; [done| |].
      * by apply handleValidate_signalsInv.
      * destruct (handleValidate_frame (signals p)) as (_ & -> & _). done.
    + intros [= <-]. apply with_signals_inv; [done| |done].
      by apply handleClear_signalsInv.
    + intros [= <-]. by apply with_signals_inv.
    + intros [= <-]. by apply with_signals_inv.
    + unfold copyField. destruct (result (signals p)); intros [= <-]. done.
    + unfold copyField. destruct (result (signals p)); intros [= <-]. done.
Qed.

Lemma run_inv (events : list Event) (p p' : Page) :
  pageInv p -> run events p = Some p' -> pageInv p'.
Proof.
  revert p. induction events as [|e events IH]; intros p Hinv; simpl.
  - by intros [= <-].
  - destruct (step e p) as [q|] eqn:Hstep; [|done].
    apply IH. by eapply step_inv.
Qed.

Lemma reachable_inv (input : option string) (events : list Event) (p : Page) :
  run events (initialPage input) = Some p -> pageInv p.
Proof. apply run_inv, initialPage_inv. Qed.

(** X9. On every page reachable from the initial one, the loading flag is
    exactly the absence of an engine ([isLoading] is false if and only if
    [itiRef.current] is set), an engine exists only on an input element,
    and a verdict is on display only once loading has ended. *)
Theorem loading_iff_no_engine
    (input : option string) (events : list Event) (p : Page) :
  run events (initialPage input) = Some p ->
  (isLoading (signals p) = false <-> is_Some (itiRef (signals p)))
  /\ (is_Some (itiRef (signals p)) -> is_Some (inputRef (signals p)))
  /\ (is_Some (result (signals p)) -> isLoading (signals p) = false).
Proof.
  intros Hrun. apply reachable_inv in Hrun as [(Hload & Hinput & Hres & _) _].
  split; [done|]. split; [done|].
  intros Hr. apply Hload. by apply Hres.
Qed.

Lemma loading_iff_no_engine_witness :
  exists p : Page,
    run [EMountEffect (usNumber NumberType.MOBILE);
         EFire HValidate false any]
        (initialPage (Some "5551234567")) = Some p
    /\ isLoading (signals p) = false.
Proof.
  eexists. split; [reflexivity|].
  eapply (loading_iff_no_engine (Some "5551234567")
            [EMountEffect (usNumber NumberType.MOBILE);
             EFire HValidate false any]);
    [reflexivity|]. by eexists.
Defined.

(** X10. On every reachable page the verdict on display is one the handler
    computed from some engine readings, input text and filter; it therefore
    carries an error message exactly when it is negative, and its
    [numberType] is empty exactly when its [nationalNumber] and
    [internationalNumber] were withheld because the engine rejected the
    number. *)
Theorem displayed_verdict_is_computed
    (input : option string) (events : list Event) (p : Page)
    (r : ValidationResult) :
  run events (initialPage input) = Some p ->
  result (signals p) = Some r ->
  (exists (iti : Iti) (value : string) (f : NumberTypeFilter),
     r = validate iti value f)
  /\ (is_Some (errorMessage r) <-> isValid r = false)
  /\ (numberType r = "" -> nationalNumber r = "" /\ internationalNumber r = "").
Proof.
  intros Hrun Hr.
  apply reachable_inv in Hrun as [(_ & _ & _ & Hprov) _].
  destruct (Hprov r Hr) as (iti & value & f & ->).
  split; [by eexists _, _, _|]. split.
  - destruct (validate_cases iti value f)
      as [(_&Hv&Hm)|[(_&_&Hv&(e&_&Hm))|(_&_&Hv&Hm)]]; rewrite Hv, Hm.
    + split; [done|]. by eexists.
    + split; [done|]. by eexists.
    + split; [by intros [? ?]|done].
  - intros Hempty. destruct (isValidNumber iti) eqn:Hvalid.
    + destruct (validate_valid_fields iti value f Hvalid) as (_ & _ & Hl).
      rewrite Hl in Hempty. by apply label_nonempty in Hempty.
    + by rewrite validate_invalid.
Qed.

Lemma displayed_verdict_is_computed_witness :
  exists (p : Page) (r : ValidationResult),
    run [EMountEffect (usNumber NumberType.MOBILE);
         EFire HNumberTypeChange false fixed_line;
         EFire HValidate false any]
        (initialPage (Some "5551234567")) = Some p
    /\ result (signals p) = Some r
    /\ is_Some (errorMessage r).
Proof.
  eexists _, _. split; [reflexivity|]. split; [reflexivity|].
  eapply (displayed_verdict_is_computed (Some "5551234567")
            [EMountEffect (usNumber NumberType.MOBILE);
             EFire HNumberTypeChange false fixed_line;
             EFire HValidate false any]);
    reflexivity.
Defined.

(** X11. On every reachable page the Validate button is enabled exactly
    when an engine exists, and then a click does store a verdict: the one
    computed from the current engine readings, input text and filter.
    While the button is disabled, [handleValidate] would change nothing. *)
Theorem validate_offered_iff_effective
    (input : option string) (events : list Event) (p : Page) :
  run events (initialPage input) = Some p ->
  (HValidate ∈ handlers (render (signals p)) <->
     is_Some (itiRef (signals p)))
  /\ (HValidate ∈ handlers (render (signals p)) ->
      exists (iti : Iti) (value : string),
        itiRef (signals p) = Some iti
        /\ inputRef (signals p) = Some value
        /\ result (handleValidate (signals p)) =
             Some (validate iti value (numberTypeFilter (signals p))))
  /\ (~ HValidate ∈ handlers (render (signals p)) ->
      handleValidate (signals p) = signals p).
Proof.
  intros Hrun. apply reachable_inv in Hrun as [(Hload & Hinput & _ & _) _].
  assert (Hoffered : HValidate ∈ handlers (render (signals p)) <->
                     isLoading (signals p) = false).
  { rewrite handlers_render.
    destruct (result (signals p)) as [r|];
      [rewrite handlers_resultsSection|];
      destruct (isLoading (signals p)); repeat case_bool_decide; set_solver. }
  split; [by rewrite Hoffered|]. split.
  - intros Hin. apply Hoffered in Hin.
    destruct (proj1 Hload Hin) as [iti Hi].
    destruct (Hinput (ex_intro _ iti Hi)) as [value Hv].
    exists iti, value. split; [done|]. split; [done|].
    by rewrite (handleValidate_ready _ iti value).
  - intros Hout. apply handleValidate_guard. right; right.
    destruct (isLoading (signals p)) eqn:Hl; [done|].
    exfalso. by apply Hout, Hoffered.
Qed.

Lemma validate_offered_iff_effective_witness :
  exists p : Page,
    run [EMountEffect (usNumber NumberType.MOBILE)]
        (initialPage (Some "5551234567")) = Some p
    /\ HValidate ∈ handlers (render (signals p)).
Proof.
  eexists. split; [reflexivity|].
  eapply (validate_offered_iff_effective (Some "5551234567")
            [EMountEffect (usNumber NumberType.MOBILE)]);
    [reflexivity|]. by eexists.
Defined.

(** ** Without an input element *)

Lemma no_input_step (e : Event) (p p' : Page) :
  inputRef (signals p) = None ->
  itiRef (signals p) = None ->
  isLoading (signals p) = true ->
  result (signals p) = None ->
  engineCalls p = [] ->
  mountInstance p = None ->
  step e p = Some p' ->
  inputRef (signals p') = None
  /\ itiRef (signals p') = None
  /\ isLoading (signals p') = true
  /\ result (signals p') = None
  /\ engineCalls p' = []
  /\ mountInstance p' = None.
Proof.
  intros Hin Hi Hl Hr Hc Hm. unfold step.
  destruct (unmounted p); [by intros [= <-]|].
  destruct e as [iti|iti| |text|iti|h checked value].
  - destruct (mountEffectRan p); intros [= <-]; [done|].
    unfold mountEffect, set_mountEffectRan. simpl. by rewrite Hin.
  - intros [= <-]. unfold strictModeEffect. by rewrite Hi.
  - intros [= <-]. simpl. by rewrite Hm, Hc.
  - intros [= <-]. simpl. by rewrite Hin.
  - intros [= <-]. simpl. by rewrite Hi.
  - destruct h; simpl.
    + intros [= <-]. simpl. unfold handleValidate. by rewrite Hi.
    + intros [= <-]. simpl. by rewrite Hin.
    + by intros [= <-].
    + by intros [= <-].
    + unfold copyField. by rewrite Hr.
    + unfold copyField. by rewrite Hr.
Qed.

(** X12. When the input element is missing as the first effect runs, the
    island never leaves the loading state: whatever happens afterwards, no
    engine is ever created, [isLoading] stays true, no verdict is ever
    stored and the Validate button is never enabled. *)
Theorem no_input_never_ready (events : list Event) (p : Page) :
  run events (initialPage None) = Some p ->
  itiRef (signals p) = None
  /\ isLoading (signals p) = true
  /\ result (signals p) = None
  /\ engineCalls p = []
  /\ ~ HValidate ∈ handlers (render (signals p)).
Proof.
  intros Hrun.
  assert (Hkeep : inputRef (signals p) = None
                  /\ itiRef (signals p) = None
                  /\ isLoading (signals p) = true
                  /\ result (signals p) = None
                  /\ engineCalls p = []
                  /\ mountInstance p = None).
  { revert Hrun.
    assert (Hstart : inputRef (signals (initialPage None)) = None
                     /\ itiRef (signals (initialPage None)) = None
                     /\ isLoading (signals (initialPage None)) = true
                     /\ result (signals (initialPage None)) = None
                     /\ engineCalls (initialPage None) = []
                     /\ mountInstance (initialPage None) = None) by done.
    generalize dependent (initialPage None).
    induction events as [|e events IH]; intros q Hq; simpl.
    - by intros [= <-].
    - destruct (step e q) as [q'|] eqn:Hstep; [|done].
      apply IH. destruct Hq as (?&?&?&?&?&?). by eapply no_input_step. }
  destruct Hkeep as (_ & Hi & Hl & Hr & Hc & _).
  repeat (split; [done|]).
  rewrite handlers_render, Hl, Hr. set_solver.
Qed.

Lemma no_input_never_ready_witness :
  exists p : Page,
    run [EMountEffect (usNumber NumberType.MOBILE);
         EStrictModeEffect (usNumber NumberType.MOBILE);
         EFire HValidate false any]
        (initialPage None) = Some p
    /\ result (signals p) = None.
Proof.
  eexists. split; [reflexivity|].
  eapply (no_input_never_ready
            [EMountEffect (usNumber NumberType.MOBILE);
             EStrictModeEffect (usNumber NumberType.MOBILE);
             EFire HValidate false any]).
  reflexivity.
Defined.

(** ** Changing the strict-mode flag *)

(** X13. Ticking or unticking Strict Mode and letting the second effect run
    replaces the engine and touches no signal but the flag: on a reachable,
    mounted page with an engine, the current instance is destroyed, a new
    one is created whose configuration carries the new value of the flag,
    and the filter and the verdict on display are what they were, so the
    verdict shown is still the one of the replaced engine. *)
Theorem strictMode_change_replaces_engine
    (input : option string) (events : list Event) (p : Page)
    (b : bool) (value : NumberTypeFilter) (iti : Iti) :
  run events (initialPage input) = Some p ->
  unmounted p = false ->
  is_Some (itiRef (signals p)) ->
  exists (p' : Page) (current : nat),
    run [EFire HStrictModeChange b value; EStrictModeEffect iti] p = Some p'
    /\ currentInstance p = Some current
    /\ engineCalls p' =
         (engineCalls p ++
          [EngineDestroy current;
           EngineCreate (created (engineCalls p))
             {| opt_initialCountry := "auto";
                opt_nationalMode := false;
                opt_formatAsYouType := true;
                opt_formatOnDisplay := true;
                opt_strictMode := b |}])%list
    /\ itiRef (signals p') = Some iti
    /\ strictMode (signals p') = b
    /\ result (signals p') = result (signals p)
    /\ numberTypeFilter (signals p') = numberTypeFilter (signals p)
    /\ isLoading (signals p') = false.
Proof.
  intros Hrun Hun [old Hi].
  apply reachable_inv in Hrun
    as [(Hload & Hinput & _ & _) (Hcur & _ & _ & _ & _ & _)].
  destruct (Hinput (ex_intro _ old Hi)) as [text Hin].
  assert (is_Some (currentInstance p)) as [c Hc] by (apply Hcur; by eexists).
  assert (Hl : isLoading (signals p) = false) by (apply Hload; by eexists).
  eexists _, c. split.
  - simpl. unfold step. simpl. rewrite !Hun. simpl. rewrite ?Hun. reflexivity.
  - unfold strictModeEffect. simpl. rewrite Hi, Hin, Hc. simpl.
    repeat (split; [done|]). done.
Qed.

Lemma strictMode_change_replaces_engine_witness :
  exists p' : Page,
    run [EMountEffect (usNumber NumberType.MOBILE);
         EFire HValidate false any;
         EFire HStrictModeChange true any;
         EStrictModeEffect (usNumber NumberType.FIXED_LINE)]
        (initialPage (Some "5551234567")) = Some p'
    /\ engineCalls p' =
         [EngineCreate 0 (itiOptions (signals (initialPage None)));
          EngineDestroy 0;
          EngineCreate 1
            {| opt_initialCountry := "auto";
               opt_nationalMode := false;
               opt_formatAsYouType := true;
               opt_formatOnDisplay := true;
               opt_strictMode := true |}]
    /\ result (signals p') =
         Some (validate (usNumber NumberType.MOBILE) "5551234567" any).
Proof.
  destruct (strictMode_change_replaces_engine (Some "5551234567")
              [EMountEffect (usNumber NumberType.MOBILE);
               EFire HValidate false any]
              (mkPage
                 (readyState (usNumber NumberType.MOBILE) "5551234567" any
                    false
                    (Some (validate (usNumber NumberType.MOBILE)
                             "5551234567" any)))
                 None
                 [EngineCreate 0 (itiOptions (signals (initialPage None)))]
                 (Some 0%nat) (Some 0%nat) true false)
              true any (usNumber NumberType.FIXED_LINE)
              eq_refl eq_refl (ex_intro _ _ eq_refl))
    as (p' & c & Hrun & Hc & Hcalls & _ & _ & Hres & _).
  exists p'. split; [|split].
  - exact Hrun.
  - rewrite Hcalls. injection Hc as <-. reflexivity.
  - rewrite Hres. reflexivity.
Defined.

(** ** Engine instances *)

(** X14. While the island is mounted, at most one engine instance is alive,
    and it is the one [itiRef.current] designates: on every reachable page
    not yet unmounted, the instances created and not destroyed are exactly
    the current one, the current one was never destroyed, and every older
    instance was destroyed exactly once. *)
Theorem one_live_engine
    (input : option string) (events : list Event) (p : Page) :
  run events (initialPage input) = Some p ->
  unmounted p = false ->
  live (engineCalls p) =
    match currentInstance p with
    | Some c => [c]
    | None => []
    end
  /\ (is_Some (currentInstance p) <-> is_Some (itiRef (signals p)))
  /\ (forall i : nat,
        (i < created (engineCalls p))%nat ->
        destroyCount i (engineCalls p) =
          if bool_decide (currentInstance p = Some i) then 0%nat else 1%nat).
Proof.
  intros Hrun Hun.
  apply reachable_inv in Hrun as [_ (Hcur & _ & _ & _ & Hlive & Hdestroy)].
  split; [|split].
  - rewrite Hlive, Hun. destruct (currentInstance p); [|done].
    by rewrite bool_decide_eq_false_2 by (intros [? _]; done).
  - done.
  - intros i Hi. rewrite Hdestroy, Hun.
    close_count.
Qed.

Lemma one_live_engine_witness :
  exists p : Page,
    run [EMountEffect (usNumber NumberType.MOBILE);
         EStrictModeEffect (usNumber NumberType.MOBILE);
         EFire HStrictModeChange true any;
         EStrictModeEffect (usNumber NumberType.MOBILE)]
        (initialPage (Some "")) = Some p
    /\ live (engineCalls p) = [2%nat].
Proof.
  eexists. split; [reflexivity|].
  eapply (one_live_engine (Some "")
            [EMountEffect (usNumber NumberType.MOBILE);
             EStrictModeEffect (usNumber NumberType.MOBILE);
             EFire HStrictModeChange true any;
             EStrictModeEffect (usNumber NumberType.MOBILE)]);
    reflexivity.
Defined.

(** X15. The cleanup of the first effect destroys the instance that effect
    created, not the current one.  On every reachable page after the
    unmount, no engine is left alive exactly when the current instance is
    still the one of the first effect; when the second effect has replaced
    it, the replacement stays alive, never destroyed, and [destroy()] has
    been called twice on the instance of the first effect. *)
Theorem unmount_destroys_mount_instance
    (input : option string) (events : list Event) (p : Page) :
  run events (initialPage input) = Some p ->
  unmounted p = true ->
  (live (engineCalls p) = [] <-> currentInstance p = mountInstance p)
  /\ (forall c m : nat,
        currentInstance p = Some c -> mountInstance p = Some m -> c <> m ->
        live (engineCalls p) = [c]
        /\ destroyCount c (engineCalls p) = 0%nat
        /\ destroyCount m (engineCalls p) = 2%nat).
Proof.
  intros Hrun Hun.
  apply reachable_inv in Hrun
    as [_ (_ & Hmount & _ & Hids & Hlive & Hdestroy)].
  split.
  - rewrite Hlive, Hun. destruct (currentInstance p) as [c|] eqn:Hc.
    + destruct (decide (mountInstance p = Some c)) as [Hm|Hm].
      * rewrite bool_decide_eq_true_2 by done. by rewrite Hm.
      * rewrite bool_decide_eq_false_2 by (by intros [_ ?]).
        split; [done|]. intros Heq. by rewrite <- Heq in Hm.
    + split; [intros _|done].
      destruct (mountInstance p) eqn:Hm; [|done].
      assert (is_Some (@None nat)) as [? ?] by (apply Hmount; by eexists).
      done.
  - intros c m Hc Hm Hne. destruct (Hids m c Hm Hc) as [Hmc Hcn].
    rewrite Hlive, !Hdestroy, Hc, Hm, Hun. split; [|split].
    + rewrite bool_decide_eq_false_2; [done|]. intros [_ [= ->]]. done.
    + close_count.
    + close_count.
Qed.

Lemma unmount_destroys_mount_instance_witness :
  exists p : Page,
    run [EMountEffect (usNumber NumberType.MOBILE);
         EStrictModeEffect (usNumber NumberType.MOBILE);
         EUnmount]
        (initialPage (Some "")) = Some p
    /\ live (engineCalls p) = [1%nat]
    /\ destroyCount 0 (engineCalls p) = 2%nat.
Proof.
  eexists. split; [reflexivity|].
  destruct (unmount_destroys_mount_instance (Some "")
              [EMountEffect (usNumber NumberType.MOBILE);
               EStrictModeEffect (usNumber NumberType.MOBILE);
               EUnmount] _ eq_refl eq_refl) as [_ Hleft].
  destruct (Hleft 1%nat 0%nat eq_refl eq_refl) as (Hl & _ & Hd); [done|].
  split; [exact Hl|exact Hd].
Defined.

(** Once both effects have run on an input element, the current instance is
    a later one than that of the first effect. *)
Lemma replaced_step (e : Event) (p p' : Page) (c : nat) :
  pageInv p ->
  mountInstance p = Some 0%nat -> currentInstance p = Some c -> (0 < c)%nat ->
  step e p = Some p' ->
  mountInstance p' = Some 0%nat
  /\ exists c' : nat, currentInstance p' = Some c' /\ (0 < c')%nat.
Proof.
  intros [_ (Hcur & _ & Hflag & Hids & _ & _)] Hm Hc Hpos. unfold step.
  destruct (unmounted p); [intros [= <-]; eauto|].
  destruct e as [iti|iti| |text|iti|h checked value].
  - rewrite Hflag by by eexists. intros [= <-]. eauto.
  - intros [= <-]. unfold strictModeEffect.
    destruct (itiRef (signals p)), (inputRef (signals p)); simpl; eauto.
    split; [done|]. eexists. split; [done|].
    destruct (Hids 0%nat c Hm Hc). lia.
  - intros [= <-]. simpl. eauto.
  - intros [= <-]. simpl. eauto.
  - intros [= <-]. simpl. eauto.
  - destruct h; simpl; try (intros [= <-]; simpl; eauto).
    + unfold copyField. destruct (result (signals p)); intros [= <-].
      simpl. eauto.
    + unfold copyField. destruct (result (signals p)); intros [= <-].
      simpl. eauto.
Qed.

(** X16. After a first render on an input element, where the first and then
    the second effect run, the engine in use is never the one the cleanup
    will destroy: whatever happens next, an unmount leaves exactly one
    engine instance alive, the current one, and calls [destroy()] a second
    time on the first instance. *)
Theorem first_render_then_unmount_leaves_engine
    (text : string) (a b : Iti) (events : list Event) (p : Page) :
  run (EMountEffect a :: EStrictModeEffect b :: events)
      (initialPage (Some text)) = Some p ->
  unmounted p = true ->
  exists c : nat,
    currentInstance p = Some c
    /\ c <> 0%nat
    /\ live (engineCalls p) = [c]
    /\ destroyCount c (engineCalls p) = 0%nat
    /\ destroyCount 0 (engineCalls p) = 2%nat.
Proof.
  intros Hrun Hun.
  pose proof (reachable_inv _ _ _ Hrun) as Hinv.
  assert (Hrepl : mountInstance p = Some 0%nat
                  /\ exists c, currentInstance p = Some c /\ (0 < c)%nat).
  { change (run events
              (strictModeEffect b
                 (mountEffect a
                    {| signals := signals (initialPage (Some text));
                       clipboard := None; engineCalls := [];
                       currentInstance := None; mountInstance := None;
                       mountEffectRan := true; unmounted := false |}))
            = Some p) in Hrun.
    revert Hrun.
    set (q := strictModeEffect b _).
    assert (Hq : pageInv q).
    { apply (run_inv [EMountEffect a; EStrictModeEffect b]
               (initialPage (Some text))); [apply initialPage_inv|done]. }
    assert (Hstart : mountInstance q = Some 0%nat
                     /\ exists c, currentInstance q = Some c /\ (0 < c)%nat).
    { split; [done|]. exists 1%nat. split; [done|lia]. }
    clearbody q. clear Hinv. revert q Hq Hstart.
    induction events as [|e events IH]; intros q Hq Hstart; simpl.
    - by intros [= <-].
    - destruct (step e q) as [q'|] eqn:Hstep; [|done].
      destruct Hstart as (Hm & c & Hc & Hpos).
      apply IH; [by eapply step_inv|by eapply replaced_step]. }
  destruct Hrepl as (Hm & c & Hc & Hpos).
  destruct Hinv as [_ (_ & _ & _ & Hids & Hlive & Hdestroy)].
  destruct (Hids 0%nat c Hm Hc) as [_ Hcn].
  exists c. split; [done|]. split; [lia|].
  rewrite Hlive, !Hdestroy, Hc, Hm, Hun. split; [|split].
  - rewrite bool_decide_eq_false_2; [done|]. intros [_ [= <-]]. lia.
  - close_count.
  - close_count.
Qed.

Lemma first_render_then_unmount_leaves_engine_witness :
  exists (p : Page) (c : nat),
    run [EMountEffect (usNumber NumberType.MOBILE);
         EStrictModeEffect (usNumber NumberType.MOBILE);
         EFire HValidate false any;
         EUnmount]
        (initialPage (Some "5551234567")) = Some p
    /\ c <> 0%nat
    /\ live (engineCalls p) = [c].
Proof.
  destruct (first_render_then_unmount_leaves_engine "5551234567"
              (usNumber NumberType.MOBILE) (usNumber NumberType.MOBILE)
              [EFire HValidate false any; EUnmount] _ eq_refl eq_refl)
    as (c & _ & Hc & Hl & _).
  eexists _, c. split; [reflexivity|]. split; [exact Hc|exact Hl].
Defined.

(** ** The earlier revision of the island *)



(** X17. With the utilities of the engine loaded and carrying the IDs of
    libphonenumber, the earlier revision of the handler stores, for every
    number the engine accepts and every filter, the very record the current
    revision stores: resolving the type code to a name first changes
    nothing. *)
Theorem legacy_agrees_on_valid_numbers
    (plain : string) (iti : Iti) (value : string) (f : NumberTypeFilter) :
  isValidNumber iti = true ->
  LegacyIsland.validate (Some libphonenumberUtils) plain iti value f =
    validate iti value f.
Proof.
  intros Hv. unfold LegacyIsland.validate. rewrite Hv. simpl.
  change (js_or_undefined
            (Legacy.numberTypeLabels
               !! Legacy.numberTypeKey (Some numberTypeEnum) (getNumberType iti))
            (Legacy.numberTypeKey (Some numberTypeEnum) (getNumberType iti)))
    with (Legacy.label (Some numberTypeEnum) (getNumberType iti)).
  rewrite legacy_label_agrees, legacy_isMobile_agrees,
    legacy_isFixedLine_agrees, !js_or_empty_default.
  destruct f; simpl.
  - destruct (isMobileType (getNumberType iti)) eqn:Ht; simpl.
    + by rewrite validate_accept by (simpl; by rewrite ?Ht).
    + by rewrite validate_mismatch_mobile.
  - destruct (isFixedLineType (getNumberType iti)) eqn:Ht; simpl.
    + by rewrite validate_accept by (simpl; by rewrite ?Ht).
    + by rewrite validate_mismatch_fixed_line.
  - by rewrite validate_accept.
Qed.

Lemma legacy_agrees_on_valid_numbers_witness :
  LegacyIsland.validate (Some libphonenumberUtils) "+15551234567"
    (usNumber NumberType.MOBILE) "5551234567" fixed_line
  = validate (usNumber NumberType.MOBILE) "5551234567" fixed_line.
Proof.
  apply (legacy_agrees_on_valid_numbers "+15551234567"
           (usNumber NumberType.MOBILE) "5551234567" fixed_line).
  reflexivity.
Defined.



(** X19. In the earlier revision, while the engine's enumeration of number
    types is not available (the utilities are not loaded, or lack it),
    every accepted number is taken to be of type "Unknown": the [mobile]
    and [fixed_line] filters reject every number, whatever its real type,
    and only the [any] filter accepts.  Without the utilities both
    formatted fields hold what [getNumber] returns for no format at all. *)
Theorem legacy_without_utils
    (utils : option LegacyIsland.Utils) (plain : string)
    (iti : Iti) (value : string) (f : NumberTypeFilter) :
  isValidNumber iti = true ->
  utils ≫= LegacyIsland.utils_numberType = None ->
  let r := LegacyIsland.validate utils plain iti value f in
  numberType r = "Unknown"
  /\ (isValid r = true <-> f = any)
  /\ (f = mobile -> errorMessage r = Some "Expected mobile number, got Unknown")
  /\ (f = fixed_line ->
      errorMessage r = Some "Expected fixed line number, got Unknown")
  /\ (utils = None -> nationalNumber r = plain /\ internationalNumber r = plain).
Proof.
  intros Hv Hnone r.
  assert (Hkey : Legacy.numberTypeKey (utils ≫= LegacyIsland.utils_numberType)
                   (getNumberType iti) = "UNKNOWN") by by rewrite Hnone.
  assert (Hlabel : js_or_undefined (Legacy.numberTypeLabels !! "UNKNOWN")
                     "UNKNOWN" = "Unknown") by by vm_compute.
  unfold r, LegacyIsland.validate. rewrite Hv. cbv zeta.
  rewrite Hkey. clear Hkey. rewrite !Hlabel.
  change (Legacy.isMobile "UNKNOWN") with false.
  change (Legacy.isFixedLine "UNKNOWN") with false.
  destruct f; cbn [negb andb isValid numberType errorMessage
                   nationalNumber internationalNumber];
    rewrite ?bool_decide_eq_true_2 by done;
    rewrite ?bool_decide_eq_false_2 by done;
    cbn [negb andb isValid numberType errorMessage
         nationalNumber internationalNumber];
    (split; [done|]); (split; [done|]); (split; [done|]); (split; [done|]);
    intros ->; cbn [mbind option_bind fmap option_fmap option_map
                    LegacyIsland.getNumberIn];
    by rewrite js_or_empty_default.
Qed.

Lemma legacy_without_utils_witness :
  errorMessage
    (LegacyIsland.validate None "+15551234567"
       (usNumber NumberType.MOBILE) "5551234567" mobile)
  = Some "Expected mobile number, got Unknown".
Proof.
  apply (legacy_without_utils None "+15551234567"
           (usNumber NumberType.MOBILE) "5551234567" mobile);
    reflexivity.
Defined.
